(** * StoreTrip: a perceptron-driven trip to the store

    A shallow embedding of [StoreTrip.js].  JavaScript numbers are IEEE 754
    binary64 values, so they are embedded as Rocq's primitive floats, whose
    operations are the same round-to-nearest-even operations; every sum below
    is therefore computed bit for bit as Node computes it.

    The global variables of the script are gathered in the record [Globals];
    the functions of the script are state transformers over it.  The two
    sources of input are made explicit: each call of [Math.random] is a coin
    handed to the function, and each string returned by
    [readline.question] is handed to the loop iteration that reads it. *)

From Stdlib Require Import Floats List String Ascii Bool Arith Lia ZArith.
Import ListNotations.

Set Warnings "-inexact-float".

(** ** JavaScript values used by the script *)

Module JS.

Local Open Scope float_scope.

(** [a[i]] read as a number: an index past the end yields [undefined],
    which arithmetic turns into [NaN]. *)
Definition at_index (a : list float) (i : nat) : float := nth i a nan.

(** [x >= y] on numbers: false as soon as one side is [NaN]. *)
Definition ge (x y : float) : bool := y <=? x.

(** [x < y] on numbers. *)
Definition lt (x y : float) : bool := x <? y.

(** [for (let i = start; i < start + n; i++) s = body(i, s)]. *)
Fixpoint for_loop {St : Type} (n : nat) (i : nat) (body : nat -> St -> St) (s : St) : St :=
  match n with
  | O => s
  | S n' => for_loop n' (S i) body (body i s)
  end.

(** [Array.prototype.includes(x, fromIndex)] on an array of booleans. *)
Definition includes (a : list bool) (x : bool) (fromIndex : nat) : bool :=
  existsb (Bool.eqb x) (skipn fromIndex a).

(** [String.prototype.toLowerCase], on the characters of the Basic Latin
    block.  No character outside that block lowercases to a Basic Latin
    letter, so the tests of the script against ['l'], ['r'] and ['s'] are
    decided by this part alone. *)
Definition lower_ascii (c : ascii) : ascii :=
  let n := nat_of_ascii c in
  if ((65 <=? n) && (n <=? 90))%nat then ascii_of_nat (n + 32) else c.

Fixpoint toLowerCase (s : string) : string :=
  match s with
  | EmptyString => EmptyString
  | String c s' => String (lower_ascii c) (toLowerCase s')
  end.

(** [s === t] on strings. *)
Definition strict_eq (s t : string) : bool := String.eqb s t.

End JS.

(** ** The agent and the global variables *)

Record AgentT : Type := mkAgent {
  environmentSequence : list bool;
  actionSequence : list bool
}.

Record Globals : Type := mkGlobals {
  Agent : AgentT;
  money : float;
  atHome : bool;
  onTheStreets : bool;
  atStore : bool;
  tookBus : bool;
  tookTaxi : bool;
  gotEnergyDrink : bool;
  tookBusHome : bool;
  tookTaxiHome : bool
}.

Definition set_Agent (a : AgentT) (g : Globals) : Globals :=
  mkGlobals a (money g) (atHome g) (onTheStreets g) (atStore g) (tookBus g)
            (tookTaxi g) (gotEnergyDrink g) (tookBusHome g) (tookTaxiHome g).
Definition set_money (m : float) (g : Globals) : Globals :=
  mkGlobals (Agent g) m (atHome g) (onTheStreets g) (atStore g) (tookBus g)
            (tookTaxi g) (gotEnergyDrink g) (tookBusHome g) (tookTaxiHome g).
Definition set_atHome (b : bool) (g : Globals) : Globals :=
  mkGlobals (Agent g) (money g) b (onTheStreets g) (atStore g) (tookBus g)
            (tookTaxi g) (gotEnergyDrink g) (tookBusHome g) (tookTaxiHome g).
Definition set_onTheStreets (b : bool) (g : Globals) : Globals :=
  mkGlobals (Agent g) (money g) (atHome g) b (atStore g) (tookBus g)
            (tookTaxi g) (gotEnergyDrink g) (tookBusHome g) (tookTaxiHome g).
Definition set_atStore (b : bool) (g : Globals) : Globals :=
  mkGlobals (Agent g) (money g) (atHome g) (onTheStreets g) b (tookBus g)
            (tookTaxi g) (gotEnergyDrink g) (tookBusHome g) (tookTaxiHome g).
Definition set_tookBus (b : bool) (g : Globals) : Globals :=
  mkGlobals (Agent g) (money g) (atHome g) (onTheStreets g) (atStore g) b
            (tookTaxi g) (gotEnergyDrink g) (tookBusHome g) (tookTaxiHome g).
Definition set_tookTaxi (b : bool) (g : Globals) : Globals :=
  mkGlobals (Agent g) (money g) (atHome g) (onTheStreets g) (atStore g) (tookBus g)
            b (gotEnergyDrink g) (tookBusHome g) (tookTaxiHome g).
Definition set_gotEnergyDrink (b : bool) (g : Globals) : Globals :=
  mkGlobals (Agent g) (money g) (atHome g) (onTheStreets g) (atStore g) (tookBus g)
            (tookTaxi g) b (tookBusHome g) (tookTaxiHome g).
Definition set_tookBusHome (b : bool) (g : Globals) : Globals :=
  mkGlobals (Agent g) (money g) (atHome g) (onTheStreets g) (atStore g) (tookBus g)
            (tookTaxi g) (gotEnergyDrink g) b (tookTaxiHome g).
Definition set_tookTaxiHome (b : bool) (g : Globals) : Globals :=
  mkGlobals (Agent g) (money g) (atHome g) (onTheStreets g) (atStore g) (tookBus g)
            (tookTaxi g) (gotEnergyDrink g) (tookBusHome g) b.

(** [Agent.addEnvironment(env)] and [Agent.addAction(choice)]: a push at the
    end of the corresponding array. *)
Definition addEnvironment (env : bool) (g : Globals) : Globals :=
  set_Agent (mkAgent (environmentSequence (Agent g) ++ [env]) (actionSequence (Agent g))) g.

Definition addAction (choice : bool) (g : Globals) : Globals :=
  set_Agent (mkAgent (environmentSequence (Agent g)) (actionSequence (Agent g) ++ [choice])) g.

(** [Math.floor(Math.random() * 2)]: 1 when the draw is at least one half. *)
Definition getZeroOrOne (coin : bool) : float := if coin then 1%float else 0%float.

(** ** The perceptron *)

Section Perceptron.

Local Open Scope float_scope.

Definition summationOfInputsAndWeights
    (sum : float) (inputsArray weightsArray : list float) (bias : float) : float :=
  JS.for_loop (List.length inputsArray) 0
    (fun i sum => sum + JS.at_index inputsArray i * JS.at_index weightsArray i) sum
  + bias.

(** The pattern every caller follows: [let sum = 0;
    sum = summationOfInputsAndWeights(sum, inputs, weights, bias);
    if (sum >= threshold) ...]. *)
Definition threshold_decision (inputs weights : list float) (bias threshold : float) : bool :=
  JS.ge (summationOfInputsAndWeights 0 inputs weights bias) threshold.

(** The decision as the specification words it: the products
    [inputs[i] * weights[i]] added up from the first to the last, the bias
    added to that, and the result compared with the threshold. *)
Definition sigma (inputs weights : list float) : float :=
  fold_left (fun acc xw => acc + fst xw * snd xw) (combine inputs weights) 0.

Definition spec_evaluate (inputs weights : list float) (bias threshold : float) : bool :=
  threshold <=? bias + sigma inputs weights.

End Perceptron.

(** The state of the script when the first function is called:
    [Agent.addEnvironment(atHome)] has run, nothing else has. *)
Definition initial_globals : Globals :=
  let g := mkGlobals (mkAgent [] []) 75%float true false false false false false false false in
  addEnvironment (atHome g) g.

(** ** Getting to the store *)

Section Transit.

Local Open Scope float_scope.

(** The three coins are the three calls of [getZeroOrOne], in the order of
    the source: weather, traffic, bus crowding. *)
Definition takeBusOrTaxi (weatherCoin trafficCoin crowdingCoin : bool) (g : Globals)
  : bool * Globals :=
  let g := set_atHome false g in
  let g := set_onTheStreets true g in
  let g := addEnvironment (onTheStreets g) g in
  let taxi_choice_threshold := 1.5 in
  let cost_factor := 1 in
  let weatherFactor := getZeroOrOne weatherCoin in
  let trafficFactor := getZeroOrOne trafficCoin in
  let busCrowdingFactor := getZeroOrOne crowdingCoin in
  let cost_weight := 0.7 in
  let weather_weight := 0.5 in
  let traffic_weight := 0.4 in
  let bus_crowding_weight := 0.3 in
  let bus_bias := -0.2 in
  let inputs := [cost_factor; weatherFactor; trafficFactor; busCrowdingFactor] in
  let weights := [cost_weight; weather_weight; traffic_weight; bus_crowding_weight] in
  let sum := 0 in
  let sum := summationOfInputsAndWeights sum inputs weights bus_bias in
  if JS.ge sum taxi_choice_threshold then
    let g := set_money (money g - 10) g in
    let g := set_tookTaxi true g in
    let g := addAction (tookTaxi g) g in
    let g := set_onTheStreets false g in
    (tookTaxi g, g)
  else
    let g := set_money (money g - 5) g in
    let g := set_tookBus true g in
    let g := addAction (tookBus g) g in
    let g := set_onTheStreets false g in
    (tookBus g, g).

(** The way home; [moneyUnder40] is the variable [moneyUnder$40]. *)
Definition takeTaxiOrBus (weatherCoin trafficCoin crowdingCoin : bool) (g : Globals)
  : bool * Globals :=
  let g := set_atStore false g in
  let g := set_onTheStreets true g in
  let g := addEnvironment (onTheStreets g) g in
  let bus_choice_threshold := 1.3 in
  let cost_factor := 1 in
  let weatherFactor := getZeroOrOne weatherCoin in
  let trafficFactor := getZeroOrOne trafficCoin in
  let busCrowdingFactor := getZeroOrOne crowdingCoin in
  let moneyUnder40 := if JS.lt (money g) 40 then 1 else 0 in
  let cost_weight := 0.7 in
  let weather_weight := -0.5 in
  let traffic_weight := 0.6 in
  let bus_crowding_weight := -0.3 in
  let money_weight := 0.4 in
  let taxi_bias := -0.2 in
  let inputs := [cost_factor; weatherFactor; trafficFactor; busCrowdingFactor; moneyUnder40] in
  let weights := [cost_weight; weather_weight; traffic_weight; bus_crowding_weight; money_weight] in
  let sum := 0 in
  let sum := summationOfInputsAndWeights sum inputs weights taxi_bias in
  if JS.ge sum bus_choice_threshold then
    let g := set_money (money g - 5) g in
    let g := set_tookBusHome true g in
    let g := addAction (tookBusHome g) g in
    let g := set_onTheStreets false g in
    (tookBusHome g, g)
  else
    let g := set_money (money g - 11) g in
    let g := set_tookTaxiHome true g in
    let g := addAction (tookTaxiHome g) g in
    let g := set_onTheStreets false g in
    (tookTaxiHome g, g).

End Transit.

(** ** In the store *)

Record Item : Type := mkItem {
  item : string;
  type : string;
  price : float
}.

(** The local variables of [storeScenario], with the globals they are used
    with.  Both branches of [storeScenario] declare the same ones. *)
Record Store : Type := mkStore {
  globals : Globals;
  checkListIncomplete : bool;
  shoppingCart : list Item;
  gotEggs : bool;
  gotMilk : bool;
  gotLighter : bool
}.

Definition set_globals (g : Globals) (s : Store) : Store :=
  mkStore g (checkListIncomplete s) (shoppingCart s) (gotEggs s) (gotMilk s) (gotLighter s).
Definition set_checkListIncomplete (b : bool) (s : Store) : Store :=
  mkStore (globals s) b (shoppingCart s) (gotEggs s) (gotMilk s) (gotLighter s).
Definition push_shoppingCart (it : Item) (s : Store) : Store :=
  mkStore (globals s) (checkListIncomplete s) (shoppingCart s ++ [it])
          (gotEggs s) (gotMilk s) (gotLighter s).
Definition set_gotEggs (b : bool) (s : Store) : Store :=
  mkStore (globals s) (checkListIncomplete s) (shoppingCart s) b (gotMilk s) (gotLighter s).
Definition set_gotMilk (b : bool) (s : Store) : Store :=
  mkStore (globals s) (checkListIncomplete s) (shoppingCart s) (gotEggs s) b (gotLighter s).
Definition set_gotLighter (b : bool) (s : Store) : Store :=
  mkStore (globals s) (checkListIncomplete s) (shoppingCart s) (gotEggs s) (gotMilk s) b.

(** [Agent.actionSequence] as the loop sees it. *)
Definition actions (s : Store) : list bool := actionSequence (Agent (globals s)).

(** What one iteration of the loop takes from outside: the string that
    [readline.question] returns, which is the value of [routeDecision] (the
    library has trimmed the typed line by then), and the value
    [Math.random] gives if the iteration draws. *)
Record Prompt : Type := mkPrompt {
  routeDecision : string;
  localGoodsCoin : bool
}.

(** The six objects the three sections of the store put in the cart; the
    source declares each pair as constants of the branch that uses it. *)
Definition localEggs : Item := mkItem "eggs" "local" 6.
Definition brandNameEggs : Item := mkItem "eggs" "brand name" 8.
Definition localMilk : Item := mkItem "milk" "local" 7.
Definition brandNameMilk : Item := mkItem "milk" "brand name" 9.
Definition localLighter : Item := mkItem "lighter" "local" 3.
Definition brandNameLighter : Item := mkItem "lighter" "brand name" 5.

Section Shopping.

Local Open Scope float_scope.
Local Open Scope string_scope.

Variable spending_bias : float.

Definition brand_name_item_threshold : float := 1.0.
Definition cost_factor : float := 1.
Definition brand_name_factor : float := 1.

(** The weighted sum of one section of the store; the source spells it out
    three times, with the same weights. *)
Definition section_sum (localGoodsFactor : float) : float :=
  let cost_weight := 0.6 in
  let local_goods_weight := -0.3 in
  let brand_name_weight := 0.6 in
  let inputs := [cost_factor; localGoodsFactor; brand_name_factor] in
  let weights := [cost_weight; local_goods_weight; brand_name_weight] in
  let sum := 0 in
  summationOfInputsAndWeights sum inputs weights spending_bias.

(** The test that ends an iteration which did not [continue]. *)
Definition checklist_test (s : Store) : Store :=
  if JS.includes (actions s) (gotEggs s) 0 &&
     JS.includes (actions s) (gotMilk s) 0 &&
     JS.includes (actions s) (gotLighter s) 0
  then set_checkListIncomplete false s
  else s.

(** One iteration of [while (checkListIncomplete)]. *)
Definition loop_body (p : Prompt) (s : Store) : Store :=
  let routeDecision := routeDecision p in
  if JS.strict_eq (JS.toLowerCase routeDecision) "l" &&
     negb (JS.includes (actions s) (gotEggs s) 1) then
    let localGoodsFactor := getZeroOrOne (localGoodsCoin p) in
    let sum := section_sum localGoodsFactor in
    let s :=
      if JS.ge sum brand_name_item_threshold then
        let s := push_shoppingCart brandNameEggs s in
        let s := set_gotEggs true s in
        set_globals (addAction (gotEggs s) (globals s)) s
      else
        let s := push_shoppingCart localEggs s in
        let s := set_gotEggs true s in
        set_globals (addAction (gotEggs s) (globals s)) s in
    checklist_test s
  else if JS.strict_eq (JS.toLowerCase routeDecision) "l" &&
          JS.includes (actions s) (gotEggs s) 1 then
    s
  else if JS.strict_eq (JS.toLowerCase routeDecision) "r" &&
          negb (JS.includes (actions s) (gotMilk s) 1) then
    let localGoodsFactor := getZeroOrOne (localGoodsCoin p) in
    let sum := section_sum localGoodsFactor in
    let s :=
      if JS.ge sum brand_name_item_threshold then
        let s := push_shoppingCart brandNameMilk s in
        let s := set_gotMilk true s in
        set_globals (addAction (gotMilk s) (globals s)) s
      else
        let s := push_shoppingCart localMilk s in
        let s := set_gotMilk true s in
        set_globals (addAction (gotMilk s) (globals s)) s in
    checklist_test s
  else if JS.strict_eq (JS.toLowerCase routeDecision) "r" &&
          JS.includes (actions s) (gotMilk s) 1 then
    s
  else if JS.strict_eq (JS.toLowerCase routeDecision) "s" &&
          negb (JS.includes (actions s) (gotLighter s) 1) then
    let localGoodsFactor := getZeroOrOne (localGoodsCoin p) in
    let sum := section_sum localGoodsFactor in
    let s :=
      if JS.ge sum brand_name_item_threshold then
        let s := push_shoppingCart brandNameLighter s in
        let s := set_gotLighter true s in
        set_globals (addAction (gotLighter s) (globals s)) s
      else
        let s := push_shoppingCart localLighter s in
        let s := set_gotLighter true s in
        set_globals (addAction (gotLighter s) (globals s)) s in
    checklist_test s
  else if JS.strict_eq (JS.toLowerCase routeDecision) "s" &&
          JS.includes (actions s) (gotLighter s) 1 then
    s
  else
    checklist_test s.

(** The state after the loop has been given the lines of [prompts]: it
    reads one line per iteration and reads no further once it has left. *)
Fixpoint run_loop (prompts : list Prompt) (s : Store) : Store :=
  match prompts with
  | [] => s
  | p :: rest =>
      if checkListIncomplete s then run_loop rest (loop_body p s) else s
  end.

(** The loop run to its exit: [None] when the lines run out while the loop
    is still asking, [Some] with the state at the exit otherwise. *)
Fixpoint while_loop (prompts : list Prompt) (s : Store) : option Store :=
  if checkListIncomplete s then
    match prompts with
    | [] => None
    | p :: rest => while_loop rest (loop_body p s)
    end
  else Some s.

(** [shoppingCart[i].price]; the loop below keeps [i] inside the cart. *)
Definition price_at (cart : list Item) (i : nat) : float :=
  match nth_error cart i with
  | Some it => price it
  | None => nan
  end.

Definition shoppingSubTotal (cart : list Item) : float :=
  JS.for_loop (List.length cart) 0 (fun i sub => sub + price_at cart i) 0.

Definition sales_tax_percent : float := 0.05.

Definition totalPrice (cart : list Item) : float :=
  let salesTaxofSubTotal := shoppingSubTotal cart * sales_tax_percent in
  shoppingSubTotal cart + salesTaxofSubTotal.

(** [money -= totalPrice]. *)
Definition pay_groceries (s : Store) : Globals :=
  set_money (money (globals s) - totalPrice (shoppingCart s)) (globals s).

(** [if (money < 40) { ... } else { money -= 6; gotEnergyDrink = true; }]. *)
Definition energy_drink (g : Globals) : Globals :=
  if JS.lt (money g) 40 then g
  else
    let g := set_money (money g - 6) g in
    set_gotEnergyDrink true g.

(** The locals as declared on entry to a branch of [storeScenario]. *)
Definition enter (g : Globals) : Store := mkStore g true [] false false false.

Definition store_branch (prompts : list Prompt) (g : Globals) : option Globals :=
  match while_loop prompts (enter g) with
  | None => None
  | Some s => Some (energy_drink (pay_groceries s))
  end.

End Shopping.

Section Script.

Local Open Scope float_scope.

(** [atStore = true; Agent.addEnvironment(atStore);]. *)
Definition arrive (g : Globals) : Globals :=
  let g := set_atStore true g in
  addEnvironment (atStore g) g.

Definition storeScenario (prompts : list Prompt) (g : Globals) : option Globals :=
  let g := arrive g in
  if JS.includes (actionSequence (Agent g)) (tookTaxi g) 0 then
    store_branch (-0.2) prompts g
  else if JS.includes (actionSequence (Agent g)) (tookBus g) 0 then
    store_branch 0 prompts g
  else Some g.

(** The coins of the two transit decisions. *)
Record Coins : Type := mkCoins {
  weatherCoin : bool;
  trafficCoin : bool;
  crowdingCoin : bool
}.

(** The whole script, up to the last assignment [atHome = true]. *)
Definition script (out : Coins) (prompts : list Prompt) (back : Coins) : option Globals :=
  let g := snd (takeBusOrTaxi (weatherCoin out) (trafficCoin out) (crowdingCoin out)
                              initial_globals) in
  match storeScenario prompts g with
  | None => None
  | Some g =>
      let g := snd (takeTaxiOrBus (weatherCoin back) (trafficCoin back) (crowdingCoin back) g) in
      Some (set_atHome true g)
  end.

End Script.

(** ** Vocabulary of the statements *)

Section Vocabulary.

Local Open Scope float_scope.
Local Open Scope string_scope.

(** The string read at the prompt is, whatever its case, the letter [d]. *)
Definition asks (d : string) (p : Prompt) : bool :=
  JS.strict_eq (JS.toLowerCase (routeDecision p)) d.

(** An answer the loop takes for none of its three directions. *)
Definition invalid (p : Prompt) : bool :=
  negb (asks "l" p) && negb (asks "r" p) && negb (asks "s" p).

Definition catalogue : list Item :=
  [localEggs; brandNameEggs; localMilk; brandNameMilk; localLighter; brandNameLighter].

(** How many objects of the cart are a given item. *)
Definition count_item (name : string) (cart : list Item) : nat :=
  List.length (filter (fun it => String.eqb (item it) name) cart).

(** The globals on entry to the loop, after the way to the store decided by
    the coins [out]. *)
Definition at_the_store (out : Coins) : Globals :=
  arrive (snd (takeBusOrTaxi (weatherCoin out) (trafficCoin out) (crowdingCoin out)
                             initial_globals)).

(** The [spending_bias] of the branch of [storeScenario] that is taken. *)
Definition branch_bias (g : Globals) : float :=
  if JS.includes (actionSequence (Agent g)) (tookTaxi g) 0 then -0.2 else 0.

(** The state of the loop after the lines [prompts] were typed. *)
Definition shopping (out : Coins) (prompts : list Prompt) : Store :=
  run_loop (branch_bias (at_the_store out)) prompts (enter (at_the_store out)).

(** What the loop keeps true of the cart, the flags and the history. *)
Record well_formed (s : Store) : Prop := mk_well_formed {
  wf_true : Forall (fun b => b = true) (actions s);
  wf_length : List.length (actions s) = S (List.length (shoppingCart s));
  wf_eggs : count_item "eggs" (shoppingCart s) = Nat.b2n (gotEggs s);
  wf_milk : count_item "milk" (shoppingCart s) = Nat.b2n (gotMilk s);
  wf_lighter : count_item "lighter" (shoppingCart s) = Nat.b2n (gotLighter s);
  wf_catalogue : Forall (fun it => In it catalogue) (shoppingCart s)
}.

Definition loop_inv (s : Store) : Prop :=
  well_formed s /\
  checkListIncomplete s = negb (gotEggs s && gotMilk s && gotLighter s).

(** The object a section puts in the cart, given the bias and the coin. *)
Definition chosen (spending_bias : float) (coin : bool) (localItem brandItem : Item) : Item :=
  if JS.ge (section_sum spending_bias (getZeroOrOne coin)) brand_name_item_threshold
  then brandItem else localItem.

(** The state after a section has put [it] in the cart; [set_flag] is the
    setter of the flag of that section. *)
Definition bought (set_flag : bool -> Store -> Store) (it : Item) (s : Store) : Store :=
  let s := set_flag true (push_shoppingCart it s) in
  set_globals (addAction true (globals s)) s.

(** The subtotal as the specification words it: the sum of the prices of
    the objects in the cart. *)
Definition spec_subtotal (cart : list Item) : float :=
  fold_left (fun acc it => acc + price it) cart 0.

(** The contract the specification gives the decision: a boolean for vectors
    of one length, a failure for vectors of different lengths. *)
Definition spec_fail_fast (inputs weights : list float) (bias threshold : float) : option bool :=
  if Nat.eqb (List.length inputs) (List.length weights)
  then Some (spec_evaluate inputs weights bias threshold)
  else None.

(** Two numbers that differ by at most the spacing of binary64 values
    between 1 and 2, that is by rounding only. *)
Definition close_to (x y : float) : bool := (abs (x - y) <=? 0x1p-52)%float.

End Vocabulary.

(** ** The end of the script *)

Section Epilogue.

Local Open Scope float_scope.

(** The two remarks on the way home, and the four closing remarks; each
    stands for the lines the script prints in that branch. *)
Inductive HomeRemark : Type := RatherACab | SmoothRide.

Inductive Summary : Type :=
| LittleMoneyNoDrink
| PlentyNoDrink
| LittleMoneyButDrink
| PlentyAndDrink.

(** [if (Agent.actionSequence.includes(tookBusHome)) ... else if
    (Agent.actionSequence.includes(tookTaxiHome)) ...]; [None] when neither
    branch is taken and nothing is printed. *)
Definition home_remark (g : Globals) : option HomeRemark :=
  if JS.includes (actionSequence (Agent g)) (tookBusHome g) 0 then Some RatherACab
  else if JS.includes (actionSequence (Agent g)) (tookTaxiHome g) 0 then Some SmoothRide
  else None.

(** The last chain of the script; [x == false] on booleans is [Bool.eqb]. *)
Definition summary (g : Globals) : option Summary :=
  if JS.lt (money g) 35 && Bool.eqb (gotEnergyDrink g) false then Some LittleMoneyNoDrink
  else if JS.ge (money g) 35 && Bool.eqb (gotEnergyDrink g) false then Some PlentyNoDrink
  else if JS.lt (money g) 35 && Bool.eqb (gotEnergyDrink g) true then Some LittleMoneyButDrink
  else if JS.ge (money g) 35 && Bool.eqb (gotEnergyDrink g) true then Some PlentyAndDrink
  else None.

End Epilogue.

(** ** Vocabulary of the runs *)

Section Runs.

Local Open Scope string_scope.
Local Open Scope list_scope.

(** [g] with another action history. *)
Definition set_actions (a : list bool) (g : Globals) : Globals :=
  set_Agent (mkAgent (environmentSequence (Agent g)) a) g.

(** The globals at the door of the store after a taxi, and after a bus. *)
Definition door_taxi : Globals := at_the_store (mkCoins true true true).
Definition door_bus : Globals := at_the_store (mkCoins false false false).

(** The carts that hold one object of each item: a choice of local or brand
    name for each, in one of the six orders. *)
Definition orders (e m l : Item) : list (list Item) :=
  [[e; m; l]; [e; l; m]; [m; e; l]; [m; l; e]; [l; e; m]; [l; m; e]].

Definition exit_carts : list (list Item) :=
  flat_map (fun e =>
    flat_map (fun m =>
      flat_map (fun l => orders e m l) [localLighter; brandNameLighter])
      [localMilk; brandNameMilk])
    [localEggs; brandNameEggs].

(** The state in which the loop is left with [cart], entered at [door]. *)
Definition exit_state (door : Globals) (cart : list Item) : Store :=
  mkStore (set_actions [true; true; true; true] door) false cart true true true.

(** The globals when the branch of [storeScenario] is done. *)
Definition after_store (s : Store) : Globals := energy_drink (pay_groceries s).

(** The way home and the last assignment of the script. *)
Definition finish (back : Coins) (g : Globals) : Globals :=
  set_atHome true
    (snd (takeTaxiOrBus (weatherCoin back) (trafficCoin back) (crowdingCoin back) g)).

Definition all_coins : list Coins :=
  [mkCoins false false false; mkCoins false false true;
   mkCoins false true false; mkCoins false true true;
   mkCoins true false false; mkCoins true false true;
   mkCoins true true false; mkCoins true true true].

(** How many objects of the cart are of the dearer kind. *)
Definition brand_names (cart : list Item) : nat :=
  List.length (filter (fun it => String.eqb (type it) "brand name") cart).

(** What the lines put in the cart, as their words and coins tell it: a
    line buys when it asks, in either case, for a direction that no earlier
    line asked for ([seen] holds those); it buys the local object when its
    coin shows local goods, the brand name object when not. *)
Fixpoint purchases (seen : list string) (prompts : list Prompt) : list Item :=
  match prompts with
  | [] => []
  | p :: rest =>
      if asks "l" p && negb (existsb (String.eqb "l") seen)
      then (if localGoodsCoin p then localEggs else brandNameEggs)
           :: purchases ("l" :: seen) rest
      else if asks "r" p && negb (existsb (String.eqb "r") seen)
      then (if localGoodsCoin p then localMilk else brandNameMilk)
           :: purchases ("r" :: seen) rest
      else if asks "s" p && negb (existsb (String.eqb "s") seen)
      then (if localGoodsCoin p then localLighter else brandNameLighter)
           :: purchases ("s" :: seen) rest
      else purchases seen rest
  end.

End Runs.

(** * Facts about binary64 arithmetic *)

Module FloatFacts.

Local Open Scope float_scope.

Lemma SFadd_comm (x y : spec_float) : SF64add x y = SF64add y x.
Proof.
  destruct x as [sx|sx| |sx mx ex], y as [sy|sy| |sy my ey];
    try reflexivity;
    try (destruct sx, sy; reflexivity).
  unfold SF64add, SFadd.
  rewrite (Z.min_comm ey ex), Z.add_comm. reflexivity.
Qed.

Lemma add_comm (x y : float) : x + y = y + x.
Proof.
  apply Prim2SF_inj. rewrite !add_spec. apply SFadd_comm.
Qed.

Lemma SFcompare_antisym (x y : spec_float) :
  SFcompare y x = option_map CompOpp (SFcompare x y).
Proof.
  destruct x as [sx|sx| |sx mx ex], y as [sy|sy| |sy my ey];
    try reflexivity;
    try (destruct sx; reflexivity);
    try (destruct sy; reflexivity);
    try (destruct sx, sy; reflexivity).
  simpl. destruct sx, sy; simpl; try reflexivity.
  - rewrite (Z.compare_antisym ey ex).
    destruct (ey ?= ex)%Z; simpl; try reflexivity.
    do 2 f_equal. symmetry. exact (Pos.compare_cont_antisym mx my Eq).
  - rewrite (Z.compare_antisym ey ex).
    destruct (ey ?= ex)%Z; simpl; try reflexivity.
    f_equal. symmetry. exact (Pos.compare_cont_antisym mx my Eq).
Qed.

Lemma is_nan_Prim2SF (x : float) : is_nan x = false -> Prim2SF x <> S754_nan.
Proof.
  unfold is_nan. rewrite FloatAxioms.eqb_spec. intros H E. rewrite E in H. discriminate.
Qed.

(** On numbers, [x < y] is the negation of [x >= y]. *)
Lemma ltb_negb_leb (x y : float) :
  is_nan x = false -> is_nan y = false -> (x <? y) = negb (y <=? x).
Proof.
  intros Hx Hy. apply is_nan_Prim2SF in Hx, Hy.
  rewrite ltb_spec, leb_spec. unfold SFltb, SFleb.
  rewrite (SFcompare_antisym (Prim2SF x) (Prim2SF y)).
  destruct (SFcompare (Prim2SF x) (Prim2SF y)) as [[]|] eqn:E; try reflexivity.
  exfalso.
  destruct (Prim2SF x) as [sx|sx| |sx mx ex], (Prim2SF y) as [sy|sy| |sy my ey];
    simpl in E; try discriminate; congruence.
Qed.

(** [NaN] is absorbing for [+] and [*], and compares with nothing. *)
Lemma add_nan_l (x : float) : nan + x = nan.
Proof.
  apply Prim2SF_inj. rewrite add_spec. reflexivity.
Qed.

Lemma add_nan_r (x : float) : x + nan = nan.
Proof.
  rewrite add_comm. apply add_nan_l.
Qed.

Lemma mul_nan_r (x : float) : x * nan = nan.
Proof.
  apply Prim2SF_inj. rewrite mul_spec.
  change (Prim2SF nan) with S754_nan. now destruct (Prim2SF x).
Qed.

Lemma leb_nan_r (x : float) : (x <=? nan) = false.
Proof.
  rewrite leb_spec. change (Prim2SF nan) with S754_nan.
  unfold SFleb. now destruct (Prim2SF x).
Qed.

End FloatFacts.

(** * The perceptron *)

Section PerceptronFacts.

Local Open Scope float_scope.

(** The loop over the indices, started in the middle of the two arrays, is
    the left fold over what remains of them. *)
Lemma for_loop_fold (xs ws pre_x pre_w : list float) (s : float) :
  List.length pre_x = List.length pre_w ->
  List.length xs = List.length ws ->
  JS.for_loop (List.length xs) (List.length pre_x)
    (fun i sum => sum + JS.at_index (pre_x ++ xs) i * JS.at_index (pre_w ++ ws) i) s
  = fold_left (fun acc xw => acc + fst xw * snd xw) (combine xs ws) s.
Proof.
  revert ws pre_x pre_w s.
  induction xs as [|x xs IH]; intros [|w ws] pre_x pre_w s Hpre Hlen;
    simpl in *; try discriminate; [reflexivity|].
  unfold JS.at_index at 3 4.
  rewrite nth_middle, Hpre, nth_middle, <- Hpre.
  specialize (IH ws (pre_x ++ [x]) (pre_w ++ [w]) (s + x * w)).
  rewrite <- !app_assoc, length_app in IH. simpl in IH.
  rewrite Nat.add_1_r in IH.
  apply IH; [rewrite !length_app; simpl; lia | lia].
Qed.

Lemma summation_fold (sum : float) (inputs weights : list float) (bias : float) :
  List.length inputs = List.length weights ->
  summationOfInputsAndWeights sum inputs weights bias
  = fold_left (fun acc xw => acc + fst xw * snd xw) (combine inputs weights) sum + bias.
Proof.
  intros Hlen. unfold summationOfInputsAndWeights.
  f_equal. exact (for_loop_fold inputs weights [] [] sum eq_refl Hlen).
Qed.

(** The decision of the callers is the decision of the specification. *)
Lemma threshold_decision_evaluate
    (inputs weights : list float) (bias threshold : float) :
  List.length inputs = List.length weights ->
  threshold_decision inputs weights bias threshold
  = spec_evaluate inputs weights bias threshold.
Proof.
  intros Hlen. unfold threshold_decision, spec_evaluate, sigma, JS.ge.
  rewrite summation_fold by assumption.
  now rewrite FloatFacts.add_comm.
Qed.

(** C1.  For vectors [inputs] and [weights] of one length, not empty, and
    any [bias] and [threshold], the decision every caller draws from
    [summationOfInputsAndWeights] is the boolean
    [bias + sum of inputs[i] * weights[i] >= threshold].  The function reads
    nothing but its arguments and writes nothing, which its type records: it
    takes no state and returns none; so two calls on the same arguments give
    the same boolean, whatever was called in between. *)
Theorem threshold_decision_spec
    (inputs weights : list float) (bias threshold : float) :
  List.length inputs = List.length weights ->
  inputs <> [] ->
  threshold_decision inputs weights bias threshold
  = spec_evaluate inputs weights bias threshold
  /\ forall inputs' weights' bias' threshold',
       inputs' = inputs -> weights' = weights ->
       bias' = bias -> threshold' = threshold ->
       threshold_decision inputs' weights' bias' threshold'
       = threshold_decision inputs weights bias threshold.
Proof.
  intros Hlen _. split.
  - now apply threshold_decision_evaluate.
  - intros inputs' weights' bias' threshold' -> -> -> ->. reflexivity.
Qed.

(** The outbound vectors, with bad weather only: equal lengths, and taxi
    refused. *)
Lemma threshold_decision_spec_witness :
  threshold_decision [1; 1; 0; 0] [0.7; 0.5; 0.4; 0.3] (-0.2) 1.5
  = spec_evaluate [1; 1; 0; 0] [0.7; 0.5; 0.4; 0.3] (-0.2) 1.5
  /\ spec_evaluate [1; 1; 0; 0] [0.7; 0.5; 0.4; 0.3] (-0.2) 1.5 = false.
Proof.
  split.
  - refine (proj1 (threshold_decision_spec [1; 1; 0; 0] [0.7; 0.5; 0.4; 0.3] (-0.2) 1.5 _ _)).
    + reflexivity.
    + discriminate.
  - vm_compute. reflexivity.
Defined.

End PerceptronFacts.

(** * The two transit decisions *)

Section TransitFacts.

Local Open Scope float_scope.

(** C3, as stated, fails on the two sums: in binary64 the sum on [1,0,0,0]
    is not 0.5 and the sum on [1,1,1,1] is not 1.7. *)
Lemma outbound_sums_inexact :
  summationOfInputsAndWeights 0 [1; 0; 0; 0] [0.7; 0.5; 0.4; 0.3] (-0.2) <> 0.5
  /\ summationOfInputsAndWeights 0 [1; 1; 1; 1] [0.7; 0.5; 0.4; 0.3] (-0.2) <> 1.7.
Proof.
  split; intros H.
  - apply (f_equal (fun x => PrimFloat.eqb x 0.5)) in H. vm_compute in H. discriminate H.
  - apply (f_equal (fun x => PrimFloat.eqb x 1.7)) in H. vm_compute in H. discriminate H.
Qed.

(** C3, amended.  The way to the store is decided by the perceptron on the
    inputs [1, weather, traffic, busCrowding], the weights
    [0.7, 0.5, 0.4, 0.3], the bias -0.2 and the threshold 1.5.  When it
    fires the agent takes the taxi and [money] loses 10; when it does not,
    the agent takes the bus and [money] loses 5.  It fires only when the
    three coins are 1.  On [1,0,0,0] the sum is the binary64 number
    0.49999999999999994, one rounding away from 0.5 and below 1.5: bus.  On
    [1,1,1,1] the sum is 1.7000000000000002, one rounding away from 1.7 and
    at least 1.5: taxi. *)
Theorem outbound_transit (weather traffic crowding : bool) (g : Globals) :
  let inputs :=
    [1; getZeroOrOne weather; getZeroOrOne traffic; getZeroOrOne crowding] in
  let weights := [0.7; 0.5; 0.4; 0.3] in
  let taxi := spec_evaluate inputs weights (-0.2) 1.5 in
  let g' := snd (takeBusOrTaxi weather traffic crowding g) in
  (money g' = if taxi then money g - 10 else money g - 5)
  /\ tookTaxi g' = (if taxi then true else tookTaxi g)
  /\ tookBus g' = (if taxi then tookBus g else true)
  /\ actionSequence (Agent g') = actionSequence (Agent g) ++ [true]
  /\ taxi = weather && traffic && crowding
  /\ (let sum := summationOfInputsAndWeights 0 [1; 0; 0; 0] weights (-0.2) in
      sum = 0.49999999999999994
      /\ close_to sum 0.5 = true /\ JS.lt sum 1.5 = true
      /\ spec_evaluate [1; 0; 0; 0] weights (-0.2) 1.5 = false)
  /\ (let sum := summationOfInputsAndWeights 0 [1; 1; 1; 1] weights (-0.2) in
      sum = 1.7000000000000002
      /\ close_to sum 1.7 = true /\ JS.ge sum 1.5 = true
      /\ spec_evaluate [1; 1; 1; 1] weights (-0.2) 1.5 = true).
Proof.
  destruct weather, traffic, crowding; repeat split; reflexivity.
Qed.

(** C4.  The way home is decided by the perceptron on the inputs
    [1, weather, traffic, busCrowding, moneyLow], where [moneyLow] is 1
    exactly when [money] is below 40 when the function is called, with the
    weights [0.7, -0.5, 0.6, -0.3, 0.4], the bias -0.2 and the threshold
    1.3.  When it fires the agent takes the bus and [money] loses 5; when
    it does not, the agent takes the taxi and [money] loses 11. *)
Theorem return_transit (weather traffic crowding : bool) (g : Globals) :
  let moneyLow := if JS.lt (money g) 40 then 1 else 0 in
  let inputs :=
    [1; getZeroOrOne weather; getZeroOrOne traffic; getZeroOrOne crowding; moneyLow] in
  let weights := [0.7; -0.5; 0.6; -0.3; 0.4] in
  let bus := spec_evaluate inputs weights (-0.2) 1.3 in
  let g' := snd (takeTaxiOrBus weather traffic crowding g) in
  (money g' = if bus then money g - 5 else money g - 11)
  /\ tookBusHome g' = (if bus then true else tookBusHome g)
  /\ tookTaxiHome g' = (if bus then tookTaxiHome g else true)
  /\ actionSequence (Agent g') = actionSequence (Agent g) ++ [true]
  /\ bus = negb weather && traffic && negb crowding && JS.lt (money g) 40.
Proof.
  unfold takeTaxiOrBus. cbn [money set_atStore set_onTheStreets addEnvironment set_Agent].
  destruct (JS.lt (money g) 40);
    destruct weather, traffic, crowding; repeat split; reflexivity.
Qed.

End TransitFacts.

(** * The shopping loop *)

Section LoopFacts.

Local Open Scope string_scope.
Local Open Scope list_scope.

(** ** What [includes] answers on a history of [true]s *)

Lemma in_skipn (k : nat) (a : list bool) (b : bool) : In b (skipn k a) -> In b a.
Proof.
  intros H. rewrite <- (firstn_skipn k a). apply in_or_app. now right.
Qed.

Lemma includes_false (a : list bool) (k : nat) :
  Forall (fun b => b = true) a -> JS.includes a false k = false.
Proof.
  intros Ha. unfold JS.includes.
  apply not_true_is_false. intros H.
  apply existsb_exists in H as (b & Hin & Hb).
  apply in_skipn in Hin.
  rewrite Forall_forall in Ha. rewrite (Ha b Hin) in Hb. discriminate.
Qed.

Lemma includes_true (a : list bool) (k : nat) :
  Forall (fun b => b = true) a -> k < List.length a -> JS.includes a true k = true.
Proof.
  intros Ha Hk. unfold JS.includes.
  destruct (skipn k a) as [|b rest] eqn:E.
  - apply (f_equal (@List.length bool)) in E. rewrite length_skipn in E. simpl in E. lia.
  - assert (Hin : In b a) by (apply (in_skipn k); rewrite E; now left).
    rewrite Forall_forall in Ha. rewrite (Ha b Hin). reflexivity.
Qed.

Lemma count_item_le (name : string) (cart : list Item) :
  count_item name cart <= List.length cart.
Proof.
  unfold count_item. apply filter_length_le.
Qed.

(** A flag that counts an item of the cart is found in the history exactly
    when it is [true], from index 0 as from index 1. *)
Lemma includes_flag (s : Store) (name : string) (flag : bool) (k : nat) :
  well_formed s -> count_item name (shoppingCart s) = Nat.b2n flag -> k <= 1 ->
  JS.includes (actions s) flag k = flag.
Proof.
  intros Hwf Hcount Hk. destruct flag.
  - apply includes_true; [apply Hwf|].
    rewrite (wf_length s Hwf).
    pose proof (count_item_le name (shoppingCart s)) as Hle.
    rewrite Hcount in Hle. simpl in Hle. lia.
  - apply includes_false, Hwf.
Qed.


(** ** One iteration, case by case *)

Lemma asks_exclusive (d d' : string) (p : Prompt) :
  asks d p = true -> d <> d' -> asks d' p = false.
Proof.
  unfold asks, JS.strict_eq. intros H Hd.
  apply String.eqb_eq in H. apply String.eqb_neq. congruence.
Qed.

Lemma actions_bought (set_flag : bool -> Store -> Store) (it : Item) (s : Store) :
  (forall b s', globals (set_flag b s') = globals s') ->
  actions (bought set_flag it s) = actions s ++ [true].
Proof.
  intros Hg. unfold bought, actions. cbn. rewrite Hg. reflexivity.
Qed.

Section Iteration.

Variable spending_bias : float.
Variable p : Prompt.
Variable s : Store.
Hypothesis Hwf : well_formed s.

Lemma left_buys :
  asks "l" p = true -> gotEggs s = false ->
  loop_body spending_bias p s
  = checklist_test (bought set_gotEggs (chosen spending_bias (localGoodsCoin p) localEggs brandNameEggs) s).
Proof.
  intros Hl He. unfold loop_body. fold (asks "l" p). rewrite Hl.
  rewrite (includes_flag s "eggs" (gotEggs s) 1 Hwf (wf_eggs s Hwf) (le_n 1)), He.
  cbn [andb negb]. unfold chosen, bought.
  destruct (JS.ge _ _); reflexivity.
Qed.

Lemma left_again :
  asks "l" p = true -> gotEggs s = true -> loop_body spending_bias p s = s.
Proof.
  intros Hl He. unfold loop_body. fold (asks "l" p). rewrite Hl.
  rewrite (includes_flag s "eggs" (gotEggs s) 1 Hwf (wf_eggs s Hwf) (le_n 1)), He.
  reflexivity.
Qed.

Lemma right_buys :
  asks "r" p = true -> gotMilk s = false ->
  loop_body spending_bias p s
  = checklist_test (bought set_gotMilk (chosen spending_bias (localGoodsCoin p) localMilk brandNameMilk) s).
Proof.
  intros Hr Hm.
  assert (Hl : asks "l" p = false) by (apply (asks_exclusive "r"); [assumption|discriminate]).
  unfold loop_body. fold (asks "l" p) (asks "r" p). rewrite Hl, Hr.
  rewrite (includes_flag s "milk" (gotMilk s) 1 Hwf (wf_milk s Hwf) (le_n 1)), Hm.
  cbn [andb negb]. unfold chosen, bought.
  destruct (JS.ge _ _); reflexivity.
Qed.

Lemma right_again :
  asks "r" p = true -> gotMilk s = true -> loop_body spending_bias p s = s.
Proof.
  intros Hr Hm.
  assert (Hl : asks "l" p = false) by (apply (asks_exclusive "r"); [assumption|discriminate]).
  unfold loop_body. fold (asks "l" p) (asks "r" p). rewrite Hl, Hr.
  rewrite (includes_flag s "milk" (gotMilk s) 1 Hwf (wf_milk s Hwf) (le_n 1)), Hm.
  reflexivity.
Qed.

Lemma straight_buys :
  asks "s" p = true -> gotLighter s = false ->
  loop_body spending_bias p s
  = checklist_test
      (bought set_gotLighter (chosen spending_bias (localGoodsCoin p) localLighter brandNameLighter) s).
Proof.
  intros Hs Hg.
  assert (Hl : asks "l" p = false) by (apply (asks_exclusive "s"); [assumption|discriminate]).
  assert (Hr : asks "r" p = false) by (apply (asks_exclusive "s"); [assumption|discriminate]).
  unfold loop_body. fold (asks "l" p) (asks "r" p) (asks "s" p). rewrite Hl, Hr, Hs.
  rewrite (includes_flag s "lighter" (gotLighter s) 1 Hwf (wf_lighter s Hwf) (le_n 1)), Hg.
  cbn [andb negb]. unfold chosen, bought.
  destruct (JS.ge _ _); reflexivity.
Qed.

Lemma straight_again :
  asks "s" p = true -> gotLighter s = true -> loop_body spending_bias p s = s.
Proof.
  intros Hs Hg.
  assert (Hl : asks "l" p = false) by (apply (asks_exclusive "s"); [assumption|discriminate]).
  assert (Hr : asks "r" p = false) by (apply (asks_exclusive "s"); [assumption|discriminate]).
  unfold loop_body. fold (asks "l" p) (asks "r" p) (asks "s" p). rewrite Hl, Hr, Hs.
  rewrite (includes_flag s "lighter" (gotLighter s) 1 Hwf (wf_lighter s Hwf) (le_n 1)), Hg.
  reflexivity.
Qed.

Lemma invalid_tests :
  invalid p = true -> loop_body spending_bias p s = checklist_test s.
Proof.
  unfold invalid. intros H.
  apply andb_prop in H as [H Hs]. apply andb_prop in H as [Hl Hr].
  apply negb_true_iff in Hl, Hr, Hs.
  unfold loop_body. fold (asks "l" p) (asks "r" p) (asks "s" p). rewrite Hl, Hr, Hs.
  reflexivity.
Qed.

End Iteration.


(** ** The invariant *)

Lemma count_item_push (name : string) (cart : list Item) (it : Item) :
  count_item name (cart ++ [it])
  = count_item name cart + (if String.eqb (item it) name then 1 else 0).
Proof.
  unfold count_item. rewrite filter_app, length_app. simpl.
  now destruct (String.eqb (item it) name).
Qed.

Ltac push_well_formed Hwf Hflag Hit :=
  destruct Hwf as [Htrue Hlen He Hm Hl Hcat];
  constructor; unfold bought, actions in *;
  cbn [globals shoppingCart gotEggs gotMilk gotLighter set_globals set_gotEggs
       set_gotMilk set_gotLighter push_shoppingCart addAction set_Agent Agent
       actionSequence] in *;
  [ apply Forall_app; split; [assumption | now constructor]
  | rewrite !length_app; simpl; lia
  | rewrite count_item_push; destruct Hit as [<-|[<-|[]]];
    rewrite ?Hflag in *; simpl in *; lia ..
  | apply Forall_app; split; [assumption|];
    constructor; [|constructor];
    destruct Hit as [<-|[<-|[]]]; simpl; tauto ].

Lemma well_formed_eggs (s : Store) (it : Item) :
  well_formed s -> gotEggs s = false -> In it [localEggs; brandNameEggs] ->
  well_formed (bought set_gotEggs it s).
Proof.
  intros Hwf Hflag Hit. push_well_formed Hwf Hflag Hit.
Qed.

Lemma well_formed_milk (s : Store) (it : Item) :
  well_formed s -> gotMilk s = false -> In it [localMilk; brandNameMilk] ->
  well_formed (bought set_gotMilk it s).
Proof.
  intros Hwf Hflag Hit. push_well_formed Hwf Hflag Hit.
Qed.

Lemma well_formed_lighter (s : Store) (it : Item) :
  well_formed s -> gotLighter s = false -> In it [localLighter; brandNameLighter] ->
  well_formed (bought set_gotLighter it s).
Proof.
  intros Hwf Hflag Hit. push_well_formed Hwf Hflag Hit.
Qed.

Lemma chosen_in (b : float) (coin : bool) (localItem brandItem : Item) :
  In (chosen b coin localItem brandItem) [localItem; brandItem].
Proof.
  unfold chosen. destruct (JS.ge _ _); simpl; tauto.
Qed.

(** With a well-formed state the test at the end of an iteration reads the
    three flags. *)
Lemma checklist_test_flags (s : Store) :
  well_formed s ->
  checklist_test s
  = if gotEggs s && gotMilk s && gotLighter s then set_checkListIncomplete false s else s.
Proof.
  intros Hwf. unfold checklist_test.
  rewrite (includes_flag s "eggs" (gotEggs s) 0 Hwf (wf_eggs s Hwf)) by lia.
  rewrite (includes_flag s "milk" (gotMilk s) 0 Hwf (wf_milk s Hwf)) by lia.
  rewrite (includes_flag s "lighter" (gotLighter s) 0 Hwf (wf_lighter s Hwf)) by lia.
  reflexivity.
Qed.

Lemma checklist_test_idle (s : Store) :
  loop_inv s -> checkListIncomplete s = true -> checklist_test s = s.
Proof.
  intros [Hwf Hinc] Hrun. rewrite checklist_test_flags by assumption.
  rewrite Hrun in Hinc. symmetry in Hinc. apply negb_true_iff in Hinc.
  now rewrite Hinc.
Qed.

Lemma loop_inv_checklist_test (s : Store) :
  well_formed s -> checkListIncomplete s = true -> loop_inv (checklist_test s).
Proof.
  intros Hwf Hrun. rewrite checklist_test_flags by assumption.
  destruct (gotEggs s && gotMilk s && gotLighter s) eqn:E.
  - split; [destruct Hwf; constructor; assumption|]. cbn. now rewrite E.
  - split; [assumption|]. now rewrite E.
Qed.

(** What [checklist_test] keeps. *)
Lemma checklist_test_keeps (s : Store) :
  globals (checklist_test s) = globals s
  /\ shoppingCart (checklist_test s) = shoppingCart s
  /\ gotEggs (checklist_test s) = gotEggs s
  /\ gotMilk (checklist_test s) = gotMilk s
  /\ gotLighter (checklist_test s) = gotLighter s.
Proof.
  unfold checklist_test. destruct (_ && _); repeat split; reflexivity.
Qed.


(** One iteration from a state of the invariant: the invariant holds again,
    a flag rises exactly when its direction is asked, money is not touched. *)
Lemma loop_body_step (b : float) (p : Prompt) (s : Store) :
  loop_inv s -> checkListIncomplete s = true ->
  loop_inv (loop_body b p s)
  /\ gotEggs (loop_body b p s) = gotEggs s || asks "l" p
  /\ gotMilk (loop_body b p s) = gotMilk s || asks "r" p
  /\ gotLighter (loop_body b p s) = gotLighter s || asks "s" p
  /\ money (globals (loop_body b p s)) = money (globals s).
Proof.
  intros Hinv Hrun. pose proof Hinv as [Hwf Hinc].
  destruct (asks "l" p) eqn:Hl; [|destruct (asks "r" p) eqn:Hr; [|destruct (asks "s" p) eqn:Hs]].
  - rewrite (asks_exclusive "l" "r" p Hl), (asks_exclusive "l" "s" p Hl) by discriminate.
    rewrite !orb_false_r.
    destruct (gotEggs s) eqn:He.
    + rewrite left_again by assumption. rewrite He. split; [assumption | now repeat split].
    + rewrite left_buys by assumption.
      destruct (checklist_test_keeps
                  (bought set_gotEggs
                     (chosen b (localGoodsCoin p) localEggs brandNameEggs) s))
        as (-> & _ & -> & -> & ->).
      split; [|now repeat split].
      apply loop_inv_checklist_test; [|assumption].
      apply well_formed_eggs; [assumption..|apply chosen_in].
  - rewrite (asks_exclusive "r" "s" p Hr) by discriminate.
    rewrite !orb_false_r.
    destruct (gotMilk s) eqn:Hm.
    + rewrite right_again by assumption. rewrite Hm. split; [assumption | now repeat split].
    + rewrite right_buys by assumption.
      destruct (checklist_test_keeps
                  (bought set_gotMilk
                     (chosen b (localGoodsCoin p) localMilk brandNameMilk) s))
        as (-> & _ & -> & -> & ->).
      split; [|now repeat split].
      apply loop_inv_checklist_test; [|assumption].
      apply well_formed_milk; [assumption..|apply chosen_in].
  - rewrite !orb_false_r.
    destruct (gotLighter s) eqn:Hg.
    + rewrite straight_again by assumption. rewrite Hg. split; [assumption | now repeat split].
    + rewrite straight_buys by assumption.
      destruct (checklist_test_keeps
                  (bought set_gotLighter
                     (chosen b (localGoodsCoin p) localLighter brandNameLighter) s))
        as (-> & _ & -> & -> & ->).
      split; [|now repeat split].
      apply loop_inv_checklist_test; [|assumption].
      apply well_formed_lighter; [assumption..|apply chosen_in].
  - rewrite invalid_tests by (assumption || (unfold invalid; now rewrite Hl, Hr, Hs)).
    rewrite checklist_test_idle by assumption.
    rewrite !orb_false_r. split; [assumption | now repeat split].
Qed.

(** ** The loop *)

Lemma run_loop_inv (b : float) (prompts : list Prompt) (s : Store) :
  loop_inv s ->
  loop_inv (run_loop b prompts s)
  /\ gotEggs (run_loop b prompts s)
     = gotEggs s || (checkListIncomplete s && existsb (asks "l") prompts)
  /\ gotMilk (run_loop b prompts s)
     = gotMilk s || (checkListIncomplete s && existsb (asks "r") prompts)
  /\ gotLighter (run_loop b prompts s)
     = gotLighter s || (checkListIncomplete s && existsb (asks "s") prompts)
  /\ money (globals (run_loop b prompts s)) = money (globals s).
Proof.
  revert s. induction prompts as [|p rest IH]; intros s Hinv; simpl.
  - rewrite !andb_false_r, !orb_false_r. split; [assumption | now repeat split].
  - destruct (checkListIncomplete s) eqn:Hrun.
    + destruct (loop_body_step b p s Hinv Hrun) as (Hinv' & He & Hm & Hl & Hmoney).
      destruct (IH _ Hinv') as (Hinv'' & -> & -> & -> & ->).
      split; [assumption|].
      rewrite He, Hm, Hl, Hmoney. simpl.
      destruct Hinv' as [_ Hinc']. rewrite Hinc', He, Hm, Hl.
      repeat split;
        destruct (gotEggs s), (gotMilk s), (gotLighter s),
                 (asks "l" p), (asks "r" p), (asks "s" p);
        simpl; rewrite ?orb_true_r, ?orb_false_r, ?andb_true_r; reflexivity.
    + simpl. rewrite !orb_false_r. split; [assumption | now repeat split].
Qed.

Lemma while_loop_run_loop (b : float) (prompts : list Prompt) (s : Store) :
  while_loop b prompts s
  = if checkListIncomplete (run_loop b prompts s) then None
    else Some (run_loop b prompts s).
Proof.
  revert s. induction prompts as [|p rest IH]; intros s; simpl.
  - now destruct (checkListIncomplete s).
  - destruct (checkListIncomplete s) eqn:Hrun; [apply IH | now rewrite Hrun].
Qed.


(** ** From the door of the store *)

Lemma at_the_store_actions (out : Coins) :
  actionSequence (Agent (at_the_store out)) = [true].
Proof.
  destruct out as [[] [] []]; reflexivity.
Qed.

Lemma enter_inv (g : Globals) :
  actionSequence (Agent g) = [true] -> loop_inv (enter g).
Proof.
  intros Ha. split; [|reflexivity].
  constructor; unfold actions; cbn; rewrite ?Ha; try reflexivity.
  - now repeat constructor.
  - constructor.
Qed.

(** The state of the loop after any lines: the invariant holds, each flag
    tells whether its direction was asked, money is as it was at the door. *)
Lemma shopping_facts (out : Coins) (prompts : list Prompt) :
  loop_inv (shopping out prompts)
  /\ gotEggs (shopping out prompts) = existsb (asks "l") prompts
  /\ gotMilk (shopping out prompts) = existsb (asks "r") prompts
  /\ gotLighter (shopping out prompts) = existsb (asks "s") prompts
  /\ money (globals (shopping out prompts)) = money (at_the_store out).
Proof.
  exact (run_loop_inv (branch_bias (at_the_store out)) prompts
           (enter (at_the_store out)) (enter_inv _ (at_the_store_actions out))).
Qed.

(** A cart of catalogue objects holds eggs, milk and lighters only. *)
Lemma cart_length (cart : list Item) :
  Forall (fun it => In it catalogue) cart ->
  List.length cart
  = count_item "eggs" cart + count_item "milk" cart + count_item "lighter" cart.
Proof.
  induction 1 as [|it cart Hit _ IH]; [reflexivity|].
  unfold count_item in *. simpl.
  destruct Hit as [<-|[<-|[<-|[<-|[<-|[<-|[]]]]]]]; simpl; lia.
Qed.

End LoopFacts.

(** * The checklist *)

Section ChecklistClaims.

Local Open Scope string_scope.
Local Open Scope list_scope.

(** C2.  Whatever lines are typed, the cart holds each of eggs, milk and
    lighter at most once: as many as the flag of the item says, 1 or 0.  The
    loop has been left exactly when the three flags are [true], and each
    flag is [true] exactly when its direction was asked; so the loop run on
    the lines returns exactly when the three directions are among them.
    Three lines asking left, right and straight, in any order, leave the
    loop with three objects in the cart.  Two lines asking the same
    direction leave one object in the cart and the loop still asking. *)
Theorem checklist_loop (out : Coins) :
  (forall prompts,
     let s := shopping out prompts in
     count_item "eggs" (shoppingCart s) = Nat.b2n (gotEggs s)
     /\ count_item "milk" (shoppingCart s) = Nat.b2n (gotMilk s)
     /\ count_item "lighter" (shoppingCart s) = Nat.b2n (gotLighter s)
     /\ count_item "eggs" (shoppingCart s) <= 1
     /\ count_item "milk" (shoppingCart s) <= 1
     /\ count_item "lighter" (shoppingCart s) <= 1
     /\ checkListIncomplete s = negb (gotEggs s && gotMilk s && gotLighter s)
     /\ gotEggs s = existsb (asks "l") prompts
     /\ gotMilk s = existsb (asks "r") prompts
     /\ gotLighter s = existsb (asks "s") prompts
     /\ while_loop (branch_bias (at_the_store out)) prompts (enter (at_the_store out))
        = if existsb (asks "l") prompts && existsb (asks "r") prompts
             && existsb (asks "s") prompts
          then Some s else None)
  /\ (forall p1 p2 p3,
        existsb (asks "l") [p1; p2; p3] = true ->
        existsb (asks "r") [p1; p2; p3] = true ->
        existsb (asks "s") [p1; p2; p3] = true ->
        checkListIncomplete (shopping out [p1; p2; p3]) = false
        /\ List.length (shoppingCart (shopping out [p1; p2; p3])) = 3)
  /\ (forall d p1 p2,
        In d ["l"; "r"; "s"] -> asks d p1 = true -> asks d p2 = true ->
        List.length (shoppingCart (shopping out [p1; p2])) = 1
        /\ checkListIncomplete (shopping out [p1; p2]) = true).
Proof.
  assert (General : forall prompts,
    let s := shopping out prompts in
    count_item "eggs" (shoppingCart s) = Nat.b2n (gotEggs s)
    /\ count_item "milk" (shoppingCart s) = Nat.b2n (gotMilk s)
    /\ count_item "lighter" (shoppingCart s) = Nat.b2n (gotLighter s)
    /\ checkListIncomplete s = negb (gotEggs s && gotMilk s && gotLighter s)
    /\ gotEggs s = existsb (asks "l") prompts
    /\ gotMilk s = existsb (asks "r") prompts
    /\ gotLighter s = existsb (asks "s") prompts
    /\ List.length (shoppingCart s)
       = Nat.b2n (gotEggs s) + Nat.b2n (gotMilk s) + Nat.b2n (gotLighter s)).
  { intros prompts s.
    destruct (shopping_facts out prompts) as ([Hwf Hinc] & He & Hm & Hl & _).
    fold s in Hwf, Hinc, He, Hm, Hl.
    rewrite (cart_length _ (wf_catalogue s Hwf)).
    rewrite (wf_eggs s Hwf), (wf_milk s Hwf), (wf_lighter s Hwf).
    now repeat split. }
  split; [|split].
  - intros prompts s.
    destruct (General prompts) as (He & Hm & Hl & Hinc & Fe & Fm & Fl & _).
    fold s in He, Hm, Hl, Hinc, Fe, Fm, Fl.
    repeat split; try assumption.
    + rewrite He. destruct (gotEggs s); simpl; lia.
    + rewrite Hm. destruct (gotMilk s); simpl; lia.
    + rewrite Hl. destruct (gotLighter s); simpl; lia.
    + rewrite while_loop_run_loop. fold (shopping out prompts). fold s.
      rewrite Hinc, Fe, Fm, Fl.
      now destruct (existsb (asks "l") prompts && existsb (asks "r") prompts
                    && existsb (asks "s") prompts).
  - intros p1 p2 p3 Hl Hr Hs.
    destruct (General [p1; p2; p3]) as (_ & _ & _ & Hinc & Fe & Fm & Fl & Hlen).
    cbv zeta in *. rewrite Hinc, Hlen, Fe, Fm, Fl, Hl, Hr, Hs. now split.
  - intros d p1 p2 Hd H1 H2.
    destruct (General [p1; p2]) as (_ & _ & _ & Hinc & Fe & Fm & Fl & Hlen).
    cbv zeta in *. rewrite Hinc, Hlen, Fe, Fm, Fl.
    destruct Hd as [<-|[<-|[<-|[]]]]; simpl;
      repeat match goal with
             | |- context [asks ?d' ?p] =>
                 first [ rewrite H1 | rewrite H2
                       | rewrite (asks_exclusive _ d' p H1) by discriminate
                       | rewrite (asks_exclusive _ d' p H2) by discriminate ]
             end; now split.
Qed.

(** Left twice, then right and straight, the first answers in capitals. *)
Lemma checklist_loop_witness :
  (checkListIncomplete
     (shopping (mkCoins true true true)
        [mkPrompt "S" false; mkPrompt "l" true; mkPrompt "R" false]) = false
   /\ List.length
        (shoppingCart
           (shopping (mkCoins true true true)
              [mkPrompt "S" false; mkPrompt "l" true; mkPrompt "R" false])) = 3)
  /\ (List.length
        (shoppingCart
           (shopping (mkCoins true true true)
              [mkPrompt "L" false; mkPrompt "l" true])) = 1
      /\ checkListIncomplete
           (shopping (mkCoins true true true)
              [mkPrompt "L" false; mkPrompt "l" true]) = true).
Proof.
  pose proof (checklist_loop (mkCoins true true true)) as (_ & Hthree & Htwice).
  split.
  - apply Hthree; reflexivity.
  - apply (Htwice "l"); [now left | reflexivity | reflexivity].
Defined.


(** C8.  In every state the loop can be in when it asks, a line that is
    none of l, r, s in either case, or that asks a direction whose flag is
    already [true], changes nothing: the state after the iteration is the
    state before it, money, cart, flags and history included, and the loop
    goes on with the next line as if the line had not been typed. *)
Theorem idle_iteration (out : Coins) (prompts : list Prompt) (p : Prompt) :
  let s := shopping out prompts in
  let b := branch_bias (at_the_store out) in
  checkListIncomplete s = true ->
  invalid p = true
  \/ (asks "l" p = true /\ gotEggs s = true)
  \/ (asks "r" p = true /\ gotMilk s = true)
  \/ (asks "s" p = true /\ gotLighter s = true) ->
  loop_body b p s = s
  /\ money (globals (loop_body b p s)) = money (globals s)
  /\ shoppingCart (loop_body b p s) = shoppingCart s
  /\ actions (loop_body b p s) = actions s
  /\ (forall rest, run_loop b (p :: rest) s = run_loop b rest s)
  /\ (forall rest, while_loop b (p :: rest) s = while_loop b rest s).
Proof.
  intros s b Hrun Hcase.
  destruct (shopping_facts out prompts) as (Hinv & _). fold s in Hinv.
  pose proof Hinv as [Hwf _].
  assert (Hidle : loop_body b p s = s).
  { destruct Hcase as [Hbad|[[Hl He]|[[Hr Hm]|[Hs Hg]]]].
    - rewrite invalid_tests by assumption. now apply checklist_test_idle.
    - now apply left_again.
    - now apply right_again.
    - now apply straight_again. }
  rewrite Hidle. repeat split; try reflexivity.
  - intros rest. simpl. now rewrite Hrun, Hidle.
  - intros rest. simpl. now rewrite Hrun, Hidle.
Qed.

(** After the eggs were bought on the way by bus: a line of gibberish. *)
Lemma idle_iteration_witness :
  loop_body (branch_bias (at_the_store (mkCoins false false false)))
    (mkPrompt "left" true)
    (shopping (mkCoins false false false) [mkPrompt "l" true])
  = shopping (mkCoins false false false) [mkPrompt "l" true].
Proof.
  refine (proj1 (idle_iteration (mkCoins false false false) [mkPrompt "l" true]
                   (mkPrompt "left" true) _ _)).
  - reflexivity.
  - left. reflexivity.
Defined.

End ChecklistClaims.

(** * Buying and paying *)

Section PurchaseClaims.

Local Open Scope float_scope.
Local Open Scope string_scope.
Local Open Scope list_scope.

Lemma chosen_spec (b : float) (coin : bool) (localItem brandItem : Item) :
  chosen b coin localItem brandItem
  = if spec_evaluate [1; getZeroOrOne coin; 1] [0.6; -0.3; 0.6] b 1.0
    then brandItem else localItem.
Proof.
  unfold chosen.
  change (JS.ge (section_sum b (getZeroOrOne coin)) brand_name_item_threshold)
    with (threshold_decision [1; getZeroOrOne coin; 1] [0.6; -0.3; 0.6] b 1.0).
  now rewrite threshold_decision_evaluate.
Qed.

Lemma branch_bias_transit (out : Coins) :
  branch_bias (at_the_store out) = if tookTaxi (at_the_store out) then -0.2 else 0.
Proof.
  destruct out as [[] [] []]; reflexivity.
Qed.

(** C5.  In each section of the store not yet visited the object put in the
    cart is decided by the perceptron on the inputs [1, localAvailable, 1],
    the weights [0.6, -0.3, 0.6], the bias -0.2 after a taxi and 0 after a
    bus, and the threshold 1.0: the brand name object when it fires, the
    local one otherwise.  The prices are 6 and 8 for eggs, 7 and 9 for
    milk, 3 and 5 for a lighter.  After a taxi and with local goods
    available the sum is 0.7, below 1.0, and the local object is taken. *)
Theorem purchase_decision (out : Coins) (prompts : list Prompt) (p : Prompt) :
  let g := at_the_store out in
  let s := shopping out prompts in
  let bias := if tookTaxi g then -0.2 else 0 in
  let brand :=
    spec_evaluate [1; getZeroOrOne (localGoodsCoin p); 1] [0.6; -0.3; 0.6] bias 1.0 in
  let s' := loop_body (branch_bias g) p s in
  (asks "l" p = true -> gotEggs s = false ->
   shoppingCart s' = shoppingCart s ++ [if brand then brandNameEggs else localEggs]
   /\ gotEggs s' = true)
  /\ (asks "r" p = true -> gotMilk s = false ->
      shoppingCart s' = shoppingCart s ++ [if brand then brandNameMilk else localMilk]
      /\ gotMilk s' = true)
  /\ (asks "s" p = true -> gotLighter s = false ->
      shoppingCart s' = shoppingCart s ++ [if brand then brandNameLighter else localLighter]
      /\ gotLighter s' = true)
  /\ (price localEggs = 6 /\ price brandNameEggs = 8
      /\ price localMilk = 7 /\ price brandNameMilk = 9
      /\ price localLighter = 3 /\ price brandNameLighter = 5)
  /\ (section_sum (-0.2) 1 = 0.7
      /\ JS.lt (section_sum (-0.2) 1) 1.0 = true
      /\ spec_evaluate [1; 1; 1] [0.6; -0.3; 0.6] (-0.2) 1.0 = false).
Proof.
  intros g s bias brand s'.
  destruct (shopping_facts out prompts) as ([Hwf _] & _). fold s in Hwf.
  assert (Hbias : branch_bias g = bias) by apply branch_bias_transit.
  unfold s'. rewrite Hbias. clear s' Hbias.
  split; [|split; [|split; [|split]]].
  - intros Hl He. rewrite left_buys, chosen_spec by assumption. fold brand.
    destruct (checklist_test_keeps
                (bought set_gotEggs (if brand then brandNameEggs else localEggs) s))
      as (_ & -> & -> & _). now split.
  - intros Hr Hm. rewrite right_buys, chosen_spec by assumption. fold brand.
    destruct (checklist_test_keeps
                (bought set_gotMilk (if brand then brandNameMilk else localMilk) s))
      as (_ & -> & _ & -> & _). now split.
  - intros Hs Hg. rewrite straight_buys, chosen_spec by assumption. fold brand.
    destruct (checklist_test_keeps
                (bought set_gotLighter (if brand then brandNameLighter else localLighter) s))
      as (_ & -> & _ & _ & ->). now split.
  - now repeat split.
  - now repeat split.
Qed.

(** The decision of a section in full: whatever the way to the store, the
    brand name object is taken exactly when no local goods are there.  After
    a taxi and without local goods the sum is the threshold itself. *)
Lemma purchase_table (coin : bool) :
  spec_evaluate [1; getZeroOrOne coin; 1] [0.6; -0.3; 0.6] (-0.2) 1.0 = negb coin
  /\ spec_evaluate [1; getZeroOrOne coin; 1] [0.6; -0.3; 0.6] 0 1.0 = negb coin
  /\ section_sum (-0.2) 0 = 1.0.
Proof.
  destruct coin; now repeat split.
Qed.

(** By taxi, then left with local eggs on the shelf. *)
Lemma purchase_decision_witness :
  shoppingCart
    (loop_body (branch_bias (at_the_store (mkCoins true true true)))
       (mkPrompt "l" true) (shopping (mkCoins true true true) []))
  = [localEggs].
Proof.
  refine (proj1 (proj1 (purchase_decision (mkCoins true true true) []
                          (mkPrompt "l" true)) _ _)); reflexivity.
Defined.

(** The loop over the cart is the left fold over it. *)
Lemma price_loop_fold (cart pre : list Item) (sub : float) :
  JS.for_loop (List.length cart) (List.length pre)
    (fun i sub => (sub + price_at (pre ++ cart) i)%float) sub
  = fold_left (fun acc it => (acc + price it)%float) cart sub.
Proof.
  revert pre sub. induction cart as [|it cart IH]; intros pre sub; [reflexivity|].
  simpl. unfold price_at at 2.
  rewrite nth_error_app2, Nat.sub_diag by lia. simpl.
  specialize (IH (pre ++ [it]) (sub + price it)%float).
  rewrite <- app_assoc, length_app, Nat.add_1_r in IH. exact IH.
Qed.

Lemma subtotal_fold (cart : list Item) : shoppingSubTotal cart = spec_subtotal cart.
Proof.
  exact (price_loop_fold cart [] 0%float).
Qed.

(** C6.  When the loop is left the branch pays: the subtotal is the sum of
    the prices in the cart, the tax is the subtotal times 0.05, the total is
    the subtotal plus the tax, and [money] loses exactly the total.  For the
    cart of the three brand name objects, 8, 9 and 5, the subtotal is 22,
    the tax 1.1 and the total 23.1. *)
Theorem checkout_arithmetic (b : float) (prompts : list Prompt) (g : Globals) (s : Store) :
  let subtotal := spec_subtotal (shoppingCart s) in
  let tax := (subtotal * 0.05)%float in
  let total := (subtotal + tax)%float in
  store_branch b prompts g
  = option_map (fun s => energy_drink (pay_groceries s)) (while_loop b prompts (enter g))
  /\ shoppingSubTotal (shoppingCart s) = subtotal
  /\ totalPrice (shoppingCart s) = total
  /\ money (pay_groceries s) = (money (globals s) - total)%float
  /\ (let cart := [brandNameEggs; brandNameMilk; brandNameLighter] in
      shoppingSubTotal cart = 22
      /\ (shoppingSubTotal cart * sales_tax_percent)%float = 1.1
      /\ totalPrice cart = 23.1).
Proof.
  intros subtotal tax total. split; [|split; [|split; [|split]]].
  - unfold store_branch. now destruct (while_loop b prompts (enter g)).
  - apply subtotal_fold.
  - unfold totalPrice. now rewrite subtotal_fold.
  - unfold pay_groceries, totalPrice. cbn [money set_money]. now rewrite subtotal_fold.
  - now repeat split.
Qed.

(** C7.  With the groceries paid, the energy drink is bought exactly when
    [money] is at least 40: then [money] loses 6 and [gotEnergyDrink]
    becomes [true]; below 40 nothing changes.  The step takes no coin. *)
Theorem energy_drink_rule (g : Globals) :
  PrimFloat.is_nan (money g) = false ->
  energy_drink g
  = (if JS.ge (money g) 40
     then set_gotEnergyDrink true (set_money (money g - 6) g)
     else g)
  /\ (JS.ge (money g) 40 = true ->
      money (energy_drink g) = (money g - 6)%float
      /\ gotEnergyDrink (energy_drink g) = true)
  /\ (JS.ge (money g) 40 = false -> energy_drink g = g).
Proof.
  intros Hnum.
  assert (Heq : energy_drink g
                = if JS.ge (money g) 40
                  then set_gotEnergyDrink true (set_money (money g - 6) g)
                  else g).
  { unfold energy_drink, JS.lt, JS.ge.
    rewrite (FloatFacts.ltb_negb_leb (money g) 40 Hnum eq_refl).
    now destruct (40 <=? money g)%float. }
  split; [exact Heq|]. rewrite Heq.
  split; intros ->; [now split | reflexivity].
Qed.

(** With 46.9 in the wallet the drink is bought; with 39 it is not. *)
Lemma energy_drink_rule_witness :
  money (energy_drink (set_money 46.9 initial_globals)) = (46.9 - 6)%float
  /\ energy_drink (set_money 39 initial_globals) = set_money 39 initial_globals.
Proof.
  split.
  - refine (proj1 (proj1 (proj2 (energy_drink_rule (set_money 46.9 initial_globals) _)) _));
      reflexivity.
  - refine (proj2 (proj2 (energy_drink_rule (set_money 39 initial_globals) _)) _);
      reflexivity.
Defined.

End PurchaseClaims.

(** * The wallet at the checkout *)

Section WalletClaims.

Local Open Scope float_scope.
Local Open Scope string_scope.
Local Open Scope list_scope.

Lemma at_the_store_money (out : Coins) :
  money (at_the_store out) = 65 \/ money (at_the_store out) = 70.
Proof.
  destruct out as [[] [] []]; (now left) || (now right).
Qed.

(** A cart with one of each item, paid from 65 or from 70. *)
Lemma exit_money (m : float) (cart : list Item) :
  m = 65 \/ m = 70 ->
  Forall (fun it => In it catalogue) cart ->
  count_item "eggs" cart = 1%nat ->
  count_item "milk" cart = 1%nat ->
  count_item "lighter" cart = 1%nat ->
  JS.ge (m - totalPrice cart) 41.9 = true
  /\ JS.ge (m - totalPrice cart) 40 = true
  /\ JS.lt (m - totalPrice cart) 40 = false.
Proof.
  intros Hm Hcat He Hmi Hl.
  pose proof (cart_length cart Hcat) as Hlen. rewrite He, Hmi, Hl in Hlen.
  destruct cart as [|a [|b [|c [|? ?]]]]; try discriminate Hlen.
  inversion Hcat as [|? ? Ha Hcat1]; subst.
  inversion Hcat1 as [|? ? Hb Hcat2]; subst.
  inversion Hcat2 as [|? ? Hc _]; subst.
  clear Hcat Hcat1 Hcat2 Hlen.
  destruct Ha as [<-|[<-|[<-|[<-|[<-|[<-|[]]]]]]];
    destruct Hb as [<-|[<-|[<-|[<-|[<-|[<-|[]]]]]]];
    try (vm_compute in He; discriminate He);
    try (vm_compute in Hmi; discriminate Hmi);
    try (vm_compute in Hl; discriminate Hl);
    destruct Hc as [<-|[<-|[<-|[<-|[<-|[<-|[]]]]]]];
    try (vm_compute in He; discriminate He);
    try (vm_compute in Hmi; discriminate Hmi);
    try (vm_compute in Hl; discriminate Hl);
    destruct Hm as [->| ->]; repeat split; vm_compute; reflexivity.
Qed.

(** The history at the door holds one [true]; it tells the taxi from the bus
    because exactly one of [tookTaxi] and [tookBus] is [true] as well. *)
Lemma at_the_store_branch (out : Coins) :
  JS.includes (actionSequence (Agent (at_the_store out))) (tookTaxi (at_the_store out)) 0
  = tookTaxi (at_the_store out)
  /\ JS.includes (actionSequence (Agent (at_the_store out))) (tookBus (at_the_store out)) 0
     = tookBus (at_the_store out)
  /\ tookBus (at_the_store out) = negb (tookTaxi (at_the_store out)).
Proof.
  destruct out as [[] [] []]; vm_compute; now repeat split.
Qed.

Lemma storeScenario_transit (out : Coins) (prompts : list Prompt) :
  storeScenario prompts
    (snd (takeBusOrTaxi (weatherCoin out) (trafficCoin out) (crowdingCoin out)
                        initial_globals))
  = store_branch (branch_bias (at_the_store out)) prompts (at_the_store out).
Proof.
  unfold storeScenario, branch_bias. fold (at_the_store out).
  destruct (at_the_store_branch out) as (-> & -> & ->).
  now destruct (tookTaxi (at_the_store out)).
Qed.

Lemma takeTaxiOrBus_keeps_drink (weather traffic crowding : bool) (g : Globals) :
  gotEnergyDrink (snd (takeTaxiOrBus weather traffic crowding g)) = gotEnergyDrink g.
Proof.
  unfold takeTaxiOrBus. now destruct (JS.ge _ _).
Qed.

(** C10.  In every run that leaves the loop, whatever the coins and the
    lines typed, [money] after the groceries are paid is at least 41.9, the
    balance left by the taxi fare and the three brand name objects
    (75 - 10 - 23.1); so it is at least 40, the test [money < 40] fails, the
    energy drink is bought, and [gotEnergyDrink] is [true] when the script
    ends. *)
Theorem drink_always_bought (out : Coins) (prompts : list Prompt) :
  let s := shopping out prompts in
  checkListIncomplete s = false ->
  JS.ge (money (pay_groceries s)) 41.9 = true
  /\ JS.ge (money (pay_groceries s)) 40 = true
  /\ JS.lt (money (pay_groceries s)) 40 = false
  /\ gotEnergyDrink (energy_drink (pay_groceries s)) = true
  /\ (forall back, exists g,
        script out prompts back = Some g /\ gotEnergyDrink g = true).
Proof.
  intros s Hexit.
  destruct (shopping_facts out prompts) as ([Hwf Hinc] & _ & _ & _ & Hmoney).
  fold s in Hwf, Hinc, Hmoney.
  rewrite Hexit in Hinc. symmetry in Hinc. apply negb_false_iff in Hinc.
  apply andb_prop in Hinc as [Hinc Hl]. apply andb_prop in Hinc as [He Hm].
  destruct (exit_money (money (globals s)) (shoppingCart s)) as (Hge & Hge40 & Hlt).
  { rewrite Hmoney. apply at_the_store_money. }
  { apply Hwf. }
  { now rewrite (wf_eggs s Hwf), He. }
  { now rewrite (wf_milk s Hwf), Hm. }
  { now rewrite (wf_lighter s Hwf), Hl. }
  change (money (pay_groceries s))
    with (money (globals s) - totalPrice (shoppingCart s)).
  assert (Hdrink : gotEnergyDrink (energy_drink (pay_groceries s)) = true).
  { unfold energy_drink.
    change (money (pay_groceries s))
      with (money (globals s) - totalPrice (shoppingCart s)).
    now rewrite Hlt. }
  split; [exact Hge|]. split; [exact Hge40|]. split; [exact Hlt|].
  split; [exact Hdrink|].
  intros back. unfold script. rewrite storeScenario_transit.
  unfold store_branch. rewrite while_loop_run_loop.
  fold (shopping out prompts). fold s. rewrite Hexit.
  eexists. split; [reflexivity|].
  cbn [gotEnergyDrink set_atHome]. now rewrite takeTaxiOrBus_keeps_drink.
Qed.

(** The dearest run: by taxi, and no local goods in any section. *)
Lemma drink_always_bought_witness :
  money (pay_groceries
           (shopping (mkCoins true true true)
              [mkPrompt "l" false; mkPrompt "r" false; mkPrompt "s" false]))
  = 41.9
  /\ JS.ge (money (pay_groceries
                    (shopping (mkCoins true true true)
                       [mkPrompt "l" false; mkPrompt "r" false; mkPrompt "s" false])))
          40 = true.
Proof.
  split; [reflexivity|].
  refine (proj1 (proj2 (drink_always_bought (mkCoins true true true)
                          [mkPrompt "l" false; mkPrompt "r" false; mkPrompt "s" false]
                          _))).
  reflexivity.
Defined.

End WalletClaims.

(** * Vectors of different lengths *)

Section MismatchClaims.

Lemma for_loop_ext {St : Type} (n i : nat) (body body' : nat -> St -> St) (s : St) :
  (forall j t, i <= j < i + n -> body j t = body' j t) ->
  JS.for_loop n i body s = JS.for_loop n i body' s.
Proof.
  revert i s. induction n as [|n IH]; intros i s Hext; [reflexivity|].
  simpl. rewrite Hext by lia. apply IH. intros j t Hj. apply Hext. lia.
Qed.

Lemma for_loop_last {St : Type} (n i : nat) (body : nat -> St -> St) (s : St) :
  JS.for_loop (S n) i body s = body (i + n) (JS.for_loop n i body s).
Proof.
  revert i s. induction n as [|n IH]; intros i s.
  - simpl. now rewrite Nat.add_0_r.
  - change (JS.for_loop (S (S n)) i body s)
      with (JS.for_loop (S n) (S i) body (body i s)).
    rewrite IH. simpl. now rewrite Nat.add_succ_r.
Qed.

Local Open Scope float_scope.

(** Weights past the last input are never read. *)
Lemma surplus_weights_ignored (sum : float) (inputs weights : list float) (bias : float) :
  (List.length inputs <= List.length weights)%nat ->
  summationOfInputsAndWeights sum inputs weights bias
  = summationOfInputsAndWeights sum inputs (firstn (List.length inputs) weights) bias.
Proof.
  intros Hlen. unfold summationOfInputsAndWeights. f_equal.
  apply for_loop_ext. intros j t Hj. unfold JS.at_index.
  rewrite nth_firstn.
  destruct (Nat.ltb_spec j (List.length inputs)); [reflexivity | lia].
Qed.

(** An input without a weight turns the sum into [NaN]. *)
Lemma missing_weight_nan (sum : float) (inputs weights : list float) (bias : float) :
  (List.length weights < List.length inputs)%nat ->
  summationOfInputsAndWeights sum inputs weights bias = nan.
Proof.
  intros Hlen. unfold summationOfInputsAndWeights.
  destruct (List.length inputs) as [|n] eqn:Hn; [lia|].
  rewrite for_loop_last. simpl.
  replace (JS.at_index weights n) with nan
    by (symmetry; apply nth_overflow; lia).
  now rewrite FloatFacts.mul_nan_r, FloatFacts.add_nan_r, FloatFacts.add_nan_l.
Qed.

(** C9, as stated, fails: with two inputs and three weights the contract of
    the specification is a failure, and the code answers [true]. *)
Lemma mismatch_not_refused :
  List.length [1; 1] <> List.length [0.7; 0.5; 0.4]
  /\ spec_fail_fast [1; 1] [0.7; 0.5; 0.4] 0 1 = None
  /\ threshold_decision [1; 1] [0.7; 0.5; 0.4] 0 1 = true.
Proof.
  split; [discriminate | split; reflexivity].
Qed.

(** C9, amended.  Called with vectors of different lengths the decision
    does not fail.  It reads one weight for each index of the inputs: weights
    past the last input are ignored, so the decision is the one on the
    weights cut to the length of the inputs; and when an input has no weight
    the sum is [NaN], which is at least no threshold, so the decision is
    [false]. *)
Theorem mismatch_decision (inputs weights : list float) (bias threshold : float) :
  List.length inputs <> List.length weights ->
  ((List.length inputs < List.length weights)%nat ->
   threshold_decision inputs weights bias threshold
   = spec_evaluate inputs (firstn (List.length inputs) weights) bias threshold)
  /\ ((List.length weights < List.length inputs)%nat ->
      summationOfInputsAndWeights 0 inputs weights bias = nan
      /\ threshold_decision inputs weights bias threshold = false).
Proof.
  intros _. split; intros Hlen.
  - unfold threshold_decision. rewrite surplus_weights_ignored by lia.
    apply threshold_decision_evaluate.
    rewrite length_firstn. lia.
  - unfold threshold_decision, JS.ge.
    rewrite missing_weight_nan by assumption.
    split; [reflexivity | apply FloatFacts.leb_nan_r].
Qed.

(** Three weights for two inputs, and one weight for two inputs. *)
Lemma mismatch_decision_witness :
  threshold_decision [1; 1] [0.7; 0.5; 0.4] 0 1
  = spec_evaluate [1; 1] [0.7; 0.5] 0 1
  /\ threshold_decision [1; 1] [0.7] 0 0 = false.
Proof.
  split.
  - refine (proj1 (mismatch_decision [1; 1] [0.7; 0.5; 0.4] 0 1 _) _);
      simpl; [discriminate | lia].
  - refine (proj2 (proj2 (mismatch_decision [1; 1] [0.7] 0 0 _) _));
      simpl; [discriminate | lia].
Defined.

End MismatchClaims.

(** * Whole runs *)

Section RunFacts.

Local Open Scope string_scope.
Local Open Scope list_scope.

Lemma set_actions_same (g : Globals) : set_actions (actionSequence (Agent g)) g = g.
Proof.
  now destruct g as [[env act] m h o st b t d bh th].
Qed.

(** An iteration touches no global but the action history. *)
Lemma loop_body_globals (b : float) (p : Prompt) (s : Store) :
  globals (loop_body b p s) = set_actions (actions (loop_body b p s)) (globals s).
Proof.
  unfold loop_body, checklist_test.
  repeat match goal with
         | |- context [if ?c then _ else _] => destruct c
         end;
    unfold actions; cbn; try (symmetry; apply set_actions_same); reflexivity.
Qed.

Lemma run_loop_globals (b : float) (prompts : list Prompt) (s : Store) :
  globals (run_loop b prompts s) = set_actions (actions (run_loop b prompts s)) (globals s).
Proof.
  revert s. induction prompts as [|p rest IH]; intros s; simpl.
  - symmetry. apply set_actions_same.
  - destruct (checkListIncomplete s).
    + rewrite IH, loop_body_globals. reflexivity.
    + symmetry. apply set_actions_same.
Qed.

Lemma all_true_repeat (a : list bool) :
  Forall (fun b => b = true) a -> a = repeat true (List.length a).
Proof.
  induction 1 as [|b a -> _ IH]; [reflexivity|]. simpl. now rewrite <- IH.
Qed.

Lemma exit_cart_in (cart : list Item) :
  Forall (fun it => In it catalogue) cart ->
  count_item "eggs" cart = 1 ->
  count_item "milk" cart = 1 ->
  count_item "lighter" cart = 1 ->
  In cart exit_carts.
Proof.
  intros Hcat He Hmi Hl.
  pose proof (cart_length cart Hcat) as Hlen. rewrite He, Hmi, Hl in Hlen.
  destruct cart as [|a [|b [|c [|? ?]]]]; try discriminate Hlen.
  inversion Hcat as [|? ? Ha Hcat1]; subst.
  inversion Hcat1 as [|? ? Hb Hcat2]; subst.
  inversion Hcat2 as [|? ? Hc _]; subst.
  clear Hcat Hcat1 Hcat2 Hlen.
  destruct Ha as [<-|[<-|[<-|[<-|[<-|[<-|[]]]]]]];
    destruct Hb as [<-|[<-|[<-|[<-|[<-|[<-|[]]]]]]];
    try (vm_compute in He; discriminate He);
    try (vm_compute in Hmi; discriminate Hmi);
    try (vm_compute in Hl; discriminate Hl);
    destruct Hc as [<-|[<-|[<-|[<-|[<-|[<-|[]]]]]]];
    try (vm_compute in He; discriminate He);
    try (vm_compute in Hmi; discriminate Hmi);
    try (vm_compute in Hl; discriminate Hl);
    unfold exit_carts, orders; cbn [flat_map app];
    repeat (first [left; reflexivity | right]).
Qed.

Lemma at_the_store_door (out : Coins) :
  at_the_store out = door_taxi \/ at_the_store out = door_bus.
Proof.
  destruct out as [[] [] []]; (now left) || (now right).
Qed.

(** The state in which the loop is left. *)
Lemma exit_shape (out : Coins) (prompts : list Prompt) :
  checkListIncomplete (shopping out prompts) = false ->
  In (shoppingCart (shopping out prompts)) exit_carts
  /\ shopping out prompts
     = exit_state (at_the_store out) (shoppingCart (shopping out prompts)).
Proof.
  intros Hexit.
  destruct (shopping_facts out prompts) as ([Hwf Hinc] & _).
  pose proof (run_loop_globals (branch_bias (at_the_store out)) prompts
                (enter (at_the_store out))) as Hg.
  fold (shopping out prompts) in Hg. cbn [globals enter] in Hg.
  rewrite Hexit in Hinc. symmetry in Hinc. apply negb_false_iff in Hinc.
  apply andb_prop in Hinc as [Hinc Hl]. apply andb_prop in Hinc as [He Hm].
  pose proof (wf_eggs _ Hwf) as Ce. pose proof (wf_milk _ Hwf) as Cm.
  pose proof (wf_lighter _ Hwf) as Cl. rewrite He in Ce. rewrite Hm in Cm. rewrite Hl in Cl.
  pose proof (cart_length _ (wf_catalogue _ Hwf)) as Hlen. rewrite Ce, Cm, Cl in Hlen.
  pose proof (all_true_repeat _ (wf_true _ Hwf)) as Hrep.
  rewrite (wf_length _ Hwf), Hlen in Hrep. simpl in Hrep.
  split; [now apply exit_cart_in; [apply Hwf|..]|].
  rewrite Hrep in Hg.
  destruct (shopping out prompts) as [g inc cart e m l]. cbn in *.
  unfold exit_state. now subst.
Qed.

Lemma script_run (out : Coins) (prompts : list Prompt) (back : Coins) :
  script out prompts back
  = if checkListIncomplete (shopping out prompts) then None
    else Some (finish back (after_store (shopping out prompts))).
Proof.
  unfold script. rewrite storeScenario_transit.
  unfold store_branch. rewrite while_loop_run_loop.
  fold (shopping out prompts).
  now destruct (checkListIncomplete (shopping out prompts)).
Qed.

Lemma in_all_coins (c : Coins) : In c all_coins.
Proof.
  destruct c as [[] [] []]; simpl; tauto.
Qed.

(** What holds of the two doors, the forty-eight carts and the eight draws
    of the way home holds of every run that comes to its end. *)
Lemma all_runs (P : Globals -> Store -> Coins -> Globals -> Prop) :
  (forall door cart back,
     In door [door_taxi; door_bus] -> In cart exit_carts -> In back all_coins ->
     P door (exit_state door cart) back (finish back (after_store (exit_state door cart)))) ->
  forall out prompts back g,
    script out prompts back = Some g ->
    P (at_the_store out) (shopping out prompts) back g.
Proof.
  intros HP out prompts back g Hrun.
  rewrite script_run in Hrun.
  destruct (checkListIncomplete (shopping out prompts)) eqn:Hexit; [discriminate|].
  injection Hrun as <-.
  destruct (exit_shape out prompts Hexit) as [Hcart Hshape].
  rewrite Hshape at 1 2. apply HP.
  - destruct (at_the_store_door out) as [-> | ->]; simpl; tauto.
  - rewrite Hshape at 1. exact Hcart.
  - apply in_all_coins.
Qed.

End RunFacts.

(** * More on the loop *)

Section LoopProperties.

Local Open Scope string_scope.
Local Open Scope list_scope.

Lemma run_loop_done (b : float) (prompts : list Prompt) (s : Store) :
  checkListIncomplete s = false -> run_loop b prompts s = s.
Proof.
  intros Hdone. destruct prompts; simpl; [reflexivity | now rewrite Hdone].
Qed.

Lemma run_loop_app (b : float) (ps qs : list Prompt) (s : Store) :
  run_loop b (ps ++ qs) s = run_loop b qs (run_loop b ps s).
Proof.
  revert s. induction ps as [|p ps IH]; intros s; simpl; [reflexivity|].
  destruct (checkListIncomplete s) eqn:Hrun; [apply IH|].
  symmetry. now apply run_loop_done.
Qed.

(** With the bias of either branch the object is chosen by the coin alone. *)
Lemma chosen_by_coin (b : float) (coin : bool) (localItem brandItem : Item) :
  b = (-0.2)%float \/ b = 0%float ->
  chosen b coin localItem brandItem = if coin then localItem else brandItem.
Proof.
  intros Hb. rewrite chosen_spec.
  destruct (purchase_table coin) as (Htaxi & Hbus & _).
  destruct Hb as [-> | ->]; [rewrite Htaxi | rewrite Hbus]; now destruct coin.
Qed.

Lemma branch_bias_values (out : Coins) :
  branch_bias (at_the_store out) = (-0.2)%float \/ branch_bias (at_the_store out) = 0%float.
Proof.
  destruct out as [[] [] []]; (now left) || (now right).
Qed.

(** What one iteration adds: nothing, or one object and one [true]. *)
Lemma loop_body_adds (b : float) (p : Prompt) (s : Store) :
  loop_inv s -> checkListIncomplete s = true ->
  exists more,
    shoppingCart (loop_body b p s) = shoppingCart s ++ more
    /\ actions (loop_body b p s) = actions s ++ repeat true (List.length more)
    /\ more
       = if asks "l" p && negb (gotEggs s)
         then [chosen b (localGoodsCoin p) localEggs brandNameEggs]
         else if asks "r" p && negb (gotMilk s)
         then [chosen b (localGoodsCoin p) localMilk brandNameMilk]
         else if asks "s" p && negb (gotLighter s)
         then [chosen b (localGoodsCoin p) localLighter brandNameLighter]
         else [].
Proof.
  intros Hinv Hrun. pose proof Hinv as [Hwf Hinc].
  assert (Hsame : forall s', loop_body b p s = s' -> s' = s ->
            shoppingCart (loop_body b p s) = shoppingCart s ++ []
            /\ actions (loop_body b p s) = actions s ++ repeat true (List.length (@nil Item))).
  { intros s' -> ->. simpl. now rewrite !app_nil_r. }
  destruct (asks "l" p) eqn:Hl; [|destruct (asks "r" p) eqn:Hr; [|destruct (asks "s" p) eqn:Hs]].
  - destruct (gotEggs s) eqn:He.
    + exists []. rewrite (asks_exclusive "l" "r" p Hl), (asks_exclusive "l" "s" p Hl)
        by discriminate.
      destruct (Hsame s (left_again b p s Hwf Hl He) eq_refl) as [-> ->]. now repeat split.
    + exists [chosen b (localGoodsCoin p) localEggs brandNameEggs].
      rewrite left_buys by assumption.
      destruct (checklist_test_keeps
                  (bought set_gotEggs
                     (chosen b (localGoodsCoin p) localEggs brandNameEggs) s))
        as (Hg & -> & _).
      unfold actions. rewrite Hg. now repeat split.
  - destruct (gotMilk s) eqn:Hm.
    + exists []. rewrite (asks_exclusive "r" "s" p Hr) by discriminate.
      destruct (Hsame s (right_again b p s Hwf Hr Hm) eq_refl) as [-> ->]. now repeat split.
    + exists [chosen b (localGoodsCoin p) localMilk brandNameMilk].
      rewrite right_buys by assumption.
      destruct (checklist_test_keeps
                  (bought set_gotMilk
                     (chosen b (localGoodsCoin p) localMilk brandNameMilk) s))
        as (Hg & -> & _).
      unfold actions. rewrite Hg. now repeat split.
  - destruct (gotLighter s) eqn:Hg'.
    + exists []. destruct (Hsame s (straight_again b p s Hwf Hs Hg') eq_refl) as [-> ->].
      now repeat split.
    + exists [chosen b (localGoodsCoin p) localLighter brandNameLighter].
      rewrite straight_buys by assumption.
      destruct (checklist_test_keeps
                  (bought set_gotLighter
                     (chosen b (localGoodsCoin p) localLighter brandNameLighter) s))
        as (Hg & -> & _).
      unfold actions. rewrite Hg. now repeat split.
  - exists [].
    assert (Hidle : loop_body b p s = s).
    { rewrite invalid_tests by (assumption || (unfold invalid; now rewrite Hl, Hr, Hs)).
      now apply checklist_test_idle. }
    destruct (Hsame s Hidle eq_refl) as [-> ->]. now repeat split.
Qed.

Lemma run_loop_adds (b : float) (prompts : list Prompt) (s : Store) :
  loop_inv s ->
  exists more,
    shoppingCart (run_loop b prompts s) = shoppingCart s ++ more
    /\ actions (run_loop b prompts s) = actions s ++ repeat true (List.length more).
Proof.
  revert s. induction prompts as [|p rest IH]; intros s Hinv; simpl.
  - exists []. simpl. now rewrite !app_nil_r.
  - destruct (checkListIncomplete s) eqn:Hrun.
    + destruct (loop_body_adds b p s Hinv Hrun) as (m1 & Hc1 & Ha1 & _).
      destruct (loop_body_step b p s Hinv Hrun) as (Hinv' & _).
      destruct (IH _ Hinv') as (m2 & Hc2 & Ha2).
      exists (m1 ++ m2). rewrite Hc2, Ha2, Hc1, Ha1.
      now rewrite length_app, repeat_app, !app_assoc.
    + exists []. simpl. now rewrite !app_nil_r.
Qed.

(** X3.  Lines compose: the state after the lines [ps] followed by [qs] is
    the state the loop reaches on [qs] from the state after [ps].  Once the
    loop has been left no further line is read: lines typed after the third
    purchase change neither the state nor the outcome of the script. *)
Theorem lines_compose (out : Coins) (ps qs : list Prompt) :
  shopping out (ps ++ qs)
  = run_loop (branch_bias (at_the_store out)) qs (shopping out ps)
  /\ (checkListIncomplete (shopping out ps) = false ->
      shopping out (ps ++ qs) = shopping out ps
      /\ forall back, script out (ps ++ qs) back = script out ps back).
Proof.
  assert (Happ : shopping out (ps ++ qs)
                 = run_loop (branch_bias (at_the_store out)) qs (shopping out ps))
    by apply run_loop_app.
  split; [exact Happ|]. intros Hexit.
  assert (Hsame : shopping out (ps ++ qs) = shopping out ps)
    by (rewrite Happ; now apply run_loop_done).
  split; [exact Hsame|]. intros back.
  unfold script. rewrite !storeScenario_transit.
  unfold store_branch. rewrite !while_loop_run_loop.
  fold (shopping out (ps ++ qs)) (shopping out ps). now rewrite Hsame.
Qed.

(** Three purchases, then two more lines. *)
Lemma lines_compose_witness :
  shopping (mkCoins true false true)
    ([mkPrompt "s" true; mkPrompt "r" false; mkPrompt "l" true]
     ++ [mkPrompt "l" false; mkPrompt "quit" true])
  = shopping (mkCoins true false true)
      [mkPrompt "s" true; mkPrompt "r" false; mkPrompt "l" true].
Proof.
  refine (proj1 (proj2 (lines_compose (mkCoins true false true)
                          [mkPrompt "s" true; mkPrompt "r" false; mkPrompt "l" true]
                          [mkPrompt "l" false; mkPrompt "quit" true]) _)).
  reflexivity.
Defined.

(** X4.  The cart and the action history only grow, and together: after
    more lines the cart is the cart before followed by the new objects, and
    the history is the history before followed by one [true] for each new
    object.  The loop spends nothing and touches no other global: the
    globals are those at the door but for the history. *)
Theorem loop_appends_only (out : Coins) (ps qs : list Prompt) :
  (exists more,
     shoppingCart (shopping out (ps ++ qs)) = shoppingCart (shopping out ps) ++ more
     /\ actions (shopping out (ps ++ qs))
        = actions (shopping out ps) ++ repeat true (List.length more))
  /\ globals (shopping out ps) = set_actions (actions (shopping out ps)) (at_the_store out)
  /\ money (globals (shopping out ps)) = money (at_the_store out).
Proof.
  split; [|split].
  - unfold shopping at 1 3. rewrite run_loop_app.
    apply run_loop_adds. apply shopping_facts.
  - exact (run_loop_globals (branch_bias (at_the_store out)) ps (enter (at_the_store out))).
  - apply shopping_facts.
Qed.

(** With every section seen, no line buys. *)
Lemma purchases_all_seen (seen : list string) (prompts : list Prompt) :
  existsb (String.eqb "l") seen = true ->
  existsb (String.eqb "r") seen = true ->
  existsb (String.eqb "s") seen = true ->
  purchases seen prompts = [].
Proof.
  intros Hl Hr Hs. induction prompts as [|p rest IH]; [reflexivity|].
  cbn [purchases]. rewrite Hl, Hr, Hs. cbn [negb]. rewrite !andb_false_r. exact IH.
Qed.

Lemma run_loop_purchases (b : float) (prompts : list Prompt) (s : Store) (seen : list string) :
  b = (-0.2)%float \/ b = 0%float ->
  loop_inv s ->
  existsb (String.eqb "l") seen = gotEggs s ->
  existsb (String.eqb "r") seen = gotMilk s ->
  existsb (String.eqb "s") seen = gotLighter s ->
  shoppingCart (run_loop b prompts s) = shoppingCart s ++ purchases seen prompts.
Proof.
  intros Hb. revert s seen.
  induction prompts as [|p rest IH]; intros s seen Hinv Sl Sr Ss.
  - simpl. now rewrite app_nil_r.
  - cbn [run_loop]. destruct (checkListIncomplete s) eqn:Hrun.
    + destruct (loop_body_adds b p s Hinv Hrun) as (more & Hc & _ & Hmore).
      rewrite !(chosen_by_coin b) in Hmore by assumption.
      destruct (loop_body_step b p s Hinv Hrun) as (Hinv' & He & Hm & Hl & _).
      cbn [purchases]. rewrite Sl, Sr, Ss.
      destruct (asks "l" p && negb (gotEggs s)) eqn:Cl;
        [|destruct (asks "r" p && negb (gotMilk s)) eqn:Cr;
          [|destruct (asks "s" p && negb (gotLighter s)) eqn:Cs]].
      * apply andb_prop in Cl as [Al _].
        assert (Sl' : existsb (String.eqb "l") ("l" :: seen) = gotEggs (loop_body b p s))
          by (rewrite He, Al, orb_true_r; reflexivity).
        assert (Sr' : existsb (String.eqb "r") ("l" :: seen) = gotMilk (loop_body b p s))
          by (rewrite Hm, (asks_exclusive "l" "r" p Al), orb_false_r, <- Sr by discriminate;
              reflexivity).
        assert (Ss' : existsb (String.eqb "s") ("l" :: seen) = gotLighter (loop_body b p s))
          by (rewrite Hl, (asks_exclusive "l" "s" p Al), orb_false_r, <- Ss by discriminate;
              reflexivity).
        rewrite (IH _ ("l" :: seen) Hinv' Sl' Sr' Ss'), Hc, Hmore, <- app_assoc.
        reflexivity.
      * apply andb_prop in Cr as [Ar _].
        assert (Sl' : existsb (String.eqb "l") ("r" :: seen) = gotEggs (loop_body b p s))
          by (rewrite He, (asks_exclusive "r" "l" p Ar), orb_false_r, <- Sl by discriminate;
              reflexivity).
        assert (Sr' : existsb (String.eqb "r") ("r" :: seen) = gotMilk (loop_body b p s))
          by (rewrite Hm, Ar, orb_true_r; reflexivity).
        assert (Ss' : existsb (String.eqb "s") ("r" :: seen) = gotLighter (loop_body b p s))
          by (rewrite Hl, (asks_exclusive "r" "s" p Ar), orb_false_r, <- Ss by discriminate;
              reflexivity).
        rewrite (IH _ ("r" :: seen) Hinv' Sl' Sr' Ss'), Hc, Hmore, <- app_assoc.
        reflexivity.
      * apply andb_prop in Cs as [As _].
        assert (Sl' : existsb (String.eqb "l") ("s" :: seen) = gotEggs (loop_body b p s))
          by (rewrite He, (asks_exclusive "s" "l" p As), orb_false_r, <- Sl by discriminate;
              reflexivity).
        assert (Sr' : existsb (String.eqb "r") ("s" :: seen) = gotMilk (loop_body b p s))
          by (rewrite Hm, (asks_exclusive "s" "r" p As), orb_false_r, <- Sr by discriminate;
              reflexivity).
        assert (Ss' : existsb (String.eqb "s") ("s" :: seen) = gotLighter (loop_body b p s))
          by (rewrite Hl, As, orb_true_r; reflexivity).
        rewrite (IH _ ("s" :: seen) Hinv' Sl' Sr' Ss'), Hc, Hmore, <- app_assoc.
        reflexivity.
      * assert (Sl' : existsb (String.eqb "l") seen = gotEggs (loop_body b p s))
          by (rewrite He, Sl; destruct (asks "l" p), (gotEggs s); simpl in *; congruence).
        assert (Sr' : existsb (String.eqb "r") seen = gotMilk (loop_body b p s))
          by (rewrite Hm, Sr; destruct (asks "r" p), (gotMilk s); simpl in *; congruence).
        assert (Ss' : existsb (String.eqb "s") seen = gotLighter (loop_body b p s))
          by (rewrite Hl, Ss; destruct (asks "s" p), (gotLighter s); simpl in *; congruence).
        rewrite (IH _ seen Hinv' Sl' Sr' Ss'), Hc, Hmore.
        now rewrite app_nil_r.
    + destruct Hinv as [_ Hinc]. rewrite Hrun in Hinc.
      symmetry in Hinc. apply negb_false_iff in Hinc.
      apply andb_prop in Hinc as [Hinc Hl]. apply andb_prop in Hinc as [He Hm].
      rewrite purchases_all_seen by congruence. now rewrite app_nil_r.
Qed.

(** X5.  The cart is decided by the lines and the coins of the store alone:
    it holds, in the order of the first visits, for each section first asked
    for the local object when local goods are there and the brand name
    object when they are not.  The way to the store, and with it the
    spending bias, changes nothing in the cart. *)
Theorem cart_contents (out : Coins) (prompts : list Prompt) :
  shoppingCart (shopping out prompts) = purchases [] prompts
  /\ forall out', shoppingCart (shopping out' prompts) = shoppingCart (shopping out prompts).
Proof.
  assert (Hcart : forall o, shoppingCart (shopping o prompts) = purchases [] prompts).
  { intros o. unfold shopping.
    rewrite (run_loop_purchases _ prompts (enter (at_the_store o)) []);
      try reflexivity.
    - apply branch_bias_values.
    - apply enter_inv, at_the_store_actions. }
  split; [apply Hcart|]. intros out'. now rewrite !Hcart.
Qed.

End LoopProperties.

(** * What every run that ends has in common *)

Section RunProperties.

Local Open Scope float_scope.
Local Open Scope string_scope.
Local Open Scope list_scope.

(** The cases of [all_runs], one by one, each settled by computation. *)
Ltac every_run :=
  let door := fresh "door" in
  let cart := fresh "cart" in
  let back := fresh "back" in
  let Hd := fresh "Hd" in
  let Hc := fresh "Hc" in
  let Hb := fresh "Hb" in
  intros door cart back Hd Hc Hb;
  unfold exit_carts, orders, all_coins in Hc, Hb;
  cbn [flat_map app In] in Hd, Hc, Hb;
  repeat match goal with
         | H : _ \/ _ |- _ => destruct H as [<-|H]
         | H : False |- _ => destruct H
         end;
  vm_compute; repeat split; reflexivity.

(** X1.  When the script ends, the action history holds five entries, one
    for each decision taken (the way out, the three purchases, the way
    home), and the environment history four; every entry of both is
    [true].  The lines typed in the store that bought nothing left no
    trace.  The agent is at home: [atHome] alone of the three places is
    [true]. *)
Theorem run_histories (out : Coins) (prompts : list Prompt) (back : Coins) (g : Globals) :
  script out prompts back = Some g ->
  actionSequence (Agent g) = [true; true; true; true; true]
  /\ environmentSequence (Agent g) = [true; true; true; true]
  /\ atHome g = true /\ onTheStreets g = false /\ atStore g = false.
Proof.
  revert out prompts back g.
  apply (all_runs (fun _ _ _ g =>
    actionSequence (Agent g) = [true; true; true; true; true]
    /\ environmentSequence (Agent g) = [true; true; true; true]
    /\ atHome g = true /\ onTheStreets g = false /\ atStore g = false)).
  every_run.
Qed.


(** A run with a line of gibberish and a second visit to the eggs. *)
Lemma run_histories_witness :
  actionSequence
    (Agent (finish (mkCoins true false false)
              (after_store
                 (shopping (mkCoins true true true)
                    [mkPrompt "l" false; mkPrompt "x" true; mkPrompt "l" true;
                     mkPrompt "r" false; mkPrompt "s" false]))))
  = [true; true; true; true; true].
Proof.
  refine (proj1 (run_histories (mkCoins true true true)
                   [mkPrompt "l" false; mkPrompt "x" true; mkPrompt "l" true;
                    mkPrompt "r" false; mkPrompt "s" false]
                   (mkCoins true false false) _ _)).
  vm_compute. reflexivity.
Defined.

(** X6.  The agent comes home by bus exactly when it went by taxi, bought
    at least two brand name objects, and finds good weather, heavy traffic
    and room on the bus; otherwise it comes home by taxi.  An agent that
    went to the store by bus never takes the bus home. *)
Theorem bus_home_rule (out : Coins) (prompts : list Prompt) (back : Coins) (g : Globals) :
  script out prompts back = Some g ->
  tookBusHome g
  = tookTaxi g && (2 <=? brand_names (shoppingCart (shopping out prompts)))%nat
    && negb (weatherCoin back) && trafficCoin back && negb (crowdingCoin back)
  /\ tookTaxiHome g = negb (tookBusHome g)
  /\ tookBus g && tookBusHome g = false
  /\ tookTaxi g = tookTaxi (at_the_store out)
  /\ tookBus g = negb (tookTaxi g).
Proof.
  revert out prompts back g.
  apply (all_runs (fun door s back g =>
    tookBusHome g
    = tookTaxi g && (2 <=? brand_names (shoppingCart s))%nat
      && negb (weatherCoin back) && trafficCoin back && negb (crowdingCoin back)
    /\ tookTaxiHome g = negb (tookBusHome g)
    /\ tookBus g && tookBusHome g = false
    /\ tookTaxi g = tookTaxi door
    /\ tookBus g = negb (tookTaxi g))).
  every_run.
Qed.

Lemma bus_home_rule_witness :
  tookBusHome
    (finish (mkCoins false true false)
       (after_store
          (shopping (mkCoins true true true)
             [mkPrompt "l" false; mkPrompt "r" false; mkPrompt "s" true])))
  = true.
Proof.
  refine (proj1 (bus_home_rule (mkCoins true true true)
                   [mkPrompt "l" false; mkPrompt "r" false; mkPrompt "s" true]
                   (mkCoins false true false) _ _)).
  vm_compute. reflexivity.
Defined.

(** X7.  The wallet only shrinks: [money] at the door is below the 75 of
    the start, [money] after the groceries below that, [money] after the
    drink below that, and [money] at home below that. *)
Theorem wallet_shrinks (out : Coins) (prompts : list Prompt) (back : Coins) (g : Globals) :
  script out prompts back = Some g ->
  JS.lt (money (at_the_store out)) (money initial_globals) = true
  /\ JS.lt (money (pay_groceries (shopping out prompts))) (money (at_the_store out)) = true
  /\ JS.lt (money (after_store (shopping out prompts)))
           (money (pay_groceries (shopping out prompts))) = true
  /\ JS.lt (money g) (money (after_store (shopping out prompts))) = true.
Proof.
  revert out prompts back g.
  apply (all_runs (fun door s back g =>
    JS.lt (money door) (money initial_globals) = true
    /\ JS.lt (money (pay_groceries s)) (money door) = true
    /\ JS.lt (money (after_store s)) (money (pay_groceries s)) = true
    /\ JS.lt (money g) (money (after_store s)) = true)).
  every_run.
Qed.

Lemma wallet_shrinks_witness :
  JS.lt
    (money (finish (mkCoins false false false)
              (after_store
                 (shopping (mkCoins false false false)
                    [mkPrompt "s" true; mkPrompt "r" true; mkPrompt "l" true]))))
    (money (after_store
              (shopping (mkCoins false false false)
                 [mkPrompt "s" true; mkPrompt "r" true; mkPrompt "l" true])))
  = true.
Proof.
  refine (proj2 (proj2 (proj2 (wallet_shrinks (mkCoins false false false)
                   [mkPrompt "s" true; mkPrompt "r" true; mkPrompt "l" true]
                   (mkCoins false false false) _ _)))).
  vm_compute. reflexivity.
Defined.

(** X8.  Every run ends with [money] between 24.9 and 36.2, and both
    bounds are reached: 24.9 by the run by taxi with brand names only and
    the taxi home, 36.2 by the run by bus with local goods only. *)
Theorem final_money_bounds :
  (forall out prompts back g,
     script out prompts back = Some g ->
     JS.ge (money g) 24.9 = true /\ JS.ge 36.2 (money g) = true)
  /\ (exists g,
        script (mkCoins true true true)
          [mkPrompt "l" false; mkPrompt "r" false; mkPrompt "s" false]
          (mkCoins true false false) = Some g
        /\ money g = 24.9)
  /\ (exists g,
        script (mkCoins false false false)
          [mkPrompt "l" true; mkPrompt "r" true; mkPrompt "s" true]
          (mkCoins false false false) = Some g
        /\ money g = 36.2).
Proof.
  split; [|split].
  - apply (all_runs (fun _ _ _ g =>
      JS.ge (money g) 24.9 = true /\ JS.ge 36.2 (money g) = true)).
    every_run.
  - eexists. split; vm_compute; reflexivity.
  - eexists. split; vm_compute; reflexivity.
Qed.

(** A run in between: by taxi, one brand name object, the bus home refused
    by the weather. *)
Lemma final_money_bounds_witness :
  JS.ge (money (finish (mkCoins true true false)
                  (after_store
                     (shopping (mkCoins true true true)
                        [mkPrompt "r" false; mkPrompt "s" true; mkPrompt "l" true]))))
        24.9 = true
  /\ JS.ge 36.2
        (money (finish (mkCoins true true false)
                  (after_store
                     (shopping (mkCoins true true true)
                        [mkPrompt "r" false; mkPrompt "s" true; mkPrompt "l" true]))))
     = true.
Proof.
  refine (proj1 final_money_bounds (mkCoins true true true)
            [mkPrompt "r" false; mkPrompt "s" true; mkPrompt "l" true]
            (mkCoins true true false) _ _).
  vm_compute. reflexivity.
Defined.

(** X9.  The closing remark is always one of the two with the energy drink;
    the two without it are never printed.  It is the one of plenty exactly
    when the agent went by bus and bought no brand name object; in every
    other run it is the one of little money. *)
Theorem closing_remark (out : Coins) (prompts : list Prompt) (back : Coins) (g : Globals) :
  script out prompts back = Some g ->
  summary g
  = Some (if tookBus g && (brand_names (shoppingCart (shopping out prompts)) =? 0)%nat
          then PlentyAndDrink else LittleMoneyButDrink).
Proof.
  revert out prompts back g.
  apply (all_runs (fun _ s _ g =>
    summary g
    = Some (if tookBus g && (brand_names (shoppingCart s) =? 0)%nat
            then PlentyAndDrink else LittleMoneyButDrink))).
  every_run.
Qed.

Lemma closing_remark_witness :
  summary
    (finish (mkCoins true true true)
       (after_store
          (shopping (mkCoins false true true)
             [mkPrompt "R" true; mkPrompt "L" true; mkPrompt "S" true])))
  = Some PlentyAndDrink.
Proof.
  refine (closing_remark (mkCoins false true true)
            [mkPrompt "R" true; mkPrompt "L" true; mkPrompt "S" true]
            (mkCoins true true true) _ _).
  vm_compute. reflexivity.
Defined.

(** X10.  The remark on the way home names the way that was taken: the
    history holds booleans only, all of them [true], and still the test on
    it tells the bus from the taxi, and one of the two remarks is always
    printed. *)
Theorem home_remark_fits (out : Coins) (prompts : list Prompt) (back : Coins) (g : Globals) :
  script out prompts back = Some g ->
  home_remark g = Some (if tookBusHome g then RatherACab else SmoothRide).
Proof.
  revert out prompts back g.
  apply (all_runs (fun _ _ _ g =>
    home_remark g = Some (if tookBusHome g then RatherACab else SmoothRide))).
  every_run.
Qed.

Lemma home_remark_fits_witness :
  home_remark
    (finish (mkCoins false true false)
       (after_store
          (shopping (mkCoins true true true)
             [mkPrompt "l" false; mkPrompt "r" false; mkPrompt "s" true])))
  = Some RatherACab.
Proof.
  refine (home_remark_fits (mkCoins true true true)
            [mkPrompt "l" false; mkPrompt "r" false; mkPrompt "s" true]
            (mkCoins false true false) _ _).
  vm_compute. reflexivity.
Defined.

End RunProperties.

(** * The functions on their own *)

Section FunctionProperties.

Local Open Scope float_scope.
Local Open Scope list_scope.

(** X2.  Both transit functions return [true] whichever way is chosen, so
    their result does not tell the taxi from the bus; both leave
    [onTheStreets] [false], and both record one [true] in each history. *)
Theorem transit_returns_true (weather traffic crowding : bool) (g : Globals) :
  (fst (takeBusOrTaxi weather traffic crowding g) = true
   /\ onTheStreets (snd (takeBusOrTaxi weather traffic crowding g)) = false
   /\ atHome (snd (takeBusOrTaxi weather traffic crowding g)) = false
   /\ environmentSequence (Agent (snd (takeBusOrTaxi weather traffic crowding g)))
      = environmentSequence (Agent g) ++ [true])
  /\ (fst (takeTaxiOrBus weather traffic crowding g) = true
      /\ onTheStreets (snd (takeTaxiOrBus weather traffic crowding g)) = false
      /\ atStore (snd (takeTaxiOrBus weather traffic crowding g)) = false
      /\ environmentSequence (Agent (snd (takeTaxiOrBus weather traffic crowding g)))
         = environmentSequence (Agent g) ++ [true]).
Proof.
  split.
  - destruct weather, traffic, crowding; now repeat split.
  - unfold takeTaxiOrBus. destruct (JS.ge _ _); now repeat split.
Qed.

(** X11.  On arrival [storeScenario] chooses its branch by looking the flags
    up in the action history.  After [takeBusOrTaxi] exactly one of
    [tookTaxi] and [tookBus] is [true], and the branch run is the one of
    the way taken: spending bias -0.2 after a taxi, 0 after a bus.  Called
    with an empty action history it runs neither branch: it records the
    arrival, reads no line, buys nothing and spends nothing. *)
Theorem store_branch_choice (prompts : list Prompt) :
  (forall out,
     let g := snd (takeBusOrTaxi (weatherCoin out) (trafficCoin out) (crowdingCoin out)
                                 initial_globals) in
     tookBus g = negb (tookTaxi g)
     /\ storeScenario prompts g
        = store_branch (if tookTaxi g then -0.2 else 0) prompts (arrive g))
  /\ (forall g,
        actionSequence (Agent g) = [] ->
        storeScenario prompts g = Some (arrive g)
        /\ money (arrive g) = money g
        /\ actionSequence (Agent (arrive g)) = []).
Proof.
  split.
  - intros out g. split.
    + subst g. destruct out as [[] [] []]; reflexivity.
    + subst g. rewrite storeScenario_transit, branch_bias_transit.
      destruct out as [[] [] []]; reflexivity.
  - intros g Hempty. unfold storeScenario.
    assert (Ha : actionSequence (Agent (arrive g)) = []) by exact Hempty.
    rewrite Ha. now repeat split.
Qed.

(** At the start of the script, before any way was taken. *)
Lemma store_branch_choice_witness :
  storeScenario [mkPrompt "l" true] initial_globals = Some (arrive initial_globals).
Proof.
  refine (proj1 (proj2 (store_branch_choice [mkPrompt "l" true]) initial_globals _)).
  reflexivity.
Defined.

Lemma mul_nan_l (x : float) : nan * x = nan.
Proof.
  apply Prim2SF_inj. rewrite mul_spec. reflexivity.
Qed.

Lemma leb_nan_l (x : float) : (nan <=? x) = false.
Proof.
  rewrite leb_spec. reflexivity.
Qed.

(** A sum that has become [NaN] stays [NaN]. *)
Lemma for_loop_nan (n i : nat) (inputs weights : list float) :
  JS.for_loop n i
    (fun i sum => sum + JS.at_index inputs i * JS.at_index weights i) nan
  = nan.
Proof.
  revert i. induction n as [|n IH]; intros i; [reflexivity|].
  simpl. now rewrite FloatFacts.add_nan_l.
Qed.

Lemma for_loop_poisoned (n i k : nat) (inputs weights : list float) (s : float) :
  (i <= k < i + n)%nat ->
  JS.at_index inputs k * JS.at_index weights k = nan ->
  JS.for_loop n i
    (fun i sum => sum + JS.at_index inputs i * JS.at_index weights i) s
  = nan.
Proof.
  revert i s. induction n as [|n IH]; intros i s Hk Hnan; [lia|].
  simpl. destruct (Nat.eq_dec k i) as [->|Hne].
  - rewrite Hnan, FloatFacts.add_nan_r. apply for_loop_nan.
  - apply IH; [lia | assumption].
Qed.

(** X12.  A [NaN] anywhere keeps the perceptron from firing: when an input
    or a weight at an index of the inputs is [NaN], or the bias, or the
    threshold, the decision is [false] whatever the other numbers are. *)
Theorem nan_never_fires (inputs weights : list float) (bias threshold : float) :
  (exists k, (k < List.length inputs)%nat
             /\ (JS.at_index inputs k = nan \/ JS.at_index weights k = nan))
  \/ bias = nan \/ threshold = nan ->
  threshold_decision inputs weights bias threshold = false.
Proof.
  unfold threshold_decision, summationOfInputsAndWeights, JS.ge.
  intros [(k & Hk & Hnan) | [-> | ->]].
  - rewrite (for_loop_poisoned _ 0 k); [|lia|].
    + rewrite FloatFacts.add_nan_l. apply FloatFacts.leb_nan_r.
    + destruct Hnan as [-> | ->]; [apply mul_nan_l | apply FloatFacts.mul_nan_r].
  - rewrite FloatFacts.add_nan_r. apply FloatFacts.leb_nan_r.
  - apply leb_nan_l.
Qed.

(** The outbound vectors with a traffic input that is not a number. *)
Lemma nan_never_fires_witness :
  threshold_decision [1; 1; nan; 1] [0.7; 0.5; 0.4; 0.3] (-0.2) 1.5 = false.
Proof.
  refine (nan_never_fires [1; 1; nan; 1] [0.7; 0.5; 0.4; 0.3] (-0.2) 1.5 _).
  left. exists 2%nat. split; [simpl; lia | left; reflexivity].
Defined.


End FunctionProperties.
